(** * fixme_fail: the pre-commit hook of [src/fixme_fail/main.py]

    A shallow embedding of the hook script and the properties of its
    behavioural contract.

    - [PyStr]: the [str] methods the script calls ([rstrip], [strip],
      [split], [join], slicing).
    - [Ere]: the extended regular expressions of [grep -E], with a
      derivative matcher, and [grep]'s line selection.
    - [Hook]: [run_cmd], [is_on_branch], [has_fixme_comments] and [main]
      over an abstract operating system (an oracle answering process
      spawns), in a state-and-exception monad that records every spawned
      process and everything printed.
    - [Git]: the operating system in which [/bin/sh], [git], [grep] and
      [true] behave as documented, over a repository state.

    A Python [str] is a Rocq [string]; a character stands for the code
    point of the same number. *)

From Stdlib Require Import ZArith Lia Bool Ascii String List.
From stdpp Require Import base option gmap strings.

Open Scope string_scope.

(* stdpp freezes [String.append] under [simpl]; the proofs below compute with it. *)
Arguments String.append !s1 s2 : simpl nomatch.

(** ** Python [str] methods *)

Module PyStr.

(** [str.isspace] on one character, for the code points below 256:
    TAB, LF, VT, FF, CR, FS, GS, RS, US, SPACE, NEL and NBSP. *)
Definition isspace (c : ascii) : bool :=
  let n := nat_of_ascii c in
  (((9 <=? n) && (n <=? 13)) || ((28 <=? n) && (n <=? 32))
   || (n =? 133) || (n =? 160))%nat.

Definition is_empty (s : string) : bool :=
  match s with EmptyString => true | String _ _ => false end.

(** The white space of [bytes]: TAB, LF, VT, FF, CR and SPACE. *)
Definition bytes_isspace (c : ascii) : bool :=
  let n := nat_of_ascii c in
  (((9 <=? n) && (n <=? 13)) || (n =? 32))%nat.

(** Removal of the trailing characters that [sp] holds of. *)
Fixpoint rstrip_by (sp : ascii -> bool) (s : string) : string :=
  match s with
  | EmptyString => EmptyString
  | String c r =>
      let r' := rstrip_by sp r in
      if is_empty r' && sp c then EmptyString else String c r'
  end.

(** [s.rstrip()] of a [str] *)
Definition rstrip (s : string) : string := rstrip_by isspace s.

(** [s.rstrip()] of a [bytes] *)
Definition bytes_rstrip (s : string) : string := rstrip_by bytes_isspace s.

(** [s.lstrip()] *)
Fixpoint lstrip (s : string) : string :=
  match s with
  | EmptyString => EmptyString
  | String c r => if isspace c then lstrip r else s
  end.

(** [s.strip()] *)
Definition strip (s : string) : string := lstrip (rstrip s).

(** [s.split(sep)] for a one-character separator: never the empty list. *)
Fixpoint split (sep : ascii) (s : string) : list string :=
  match s with
  | EmptyString => [EmptyString]
  | String c r =>
      if Ascii.eqb c sep then EmptyString :: split sep r
      else match split sep r with
           | h :: t => String c h :: t
           | [] => [String c EmptyString]
           end
  end.

(** [sep.join(l)] *)
Fixpoint join (sep : string) (l : list string) : string :=
  match l with
  | [] => EmptyString
  | [x] => x
  | x :: t => x ++ sep ++ join sep t
  end.

(** [l[n:]] *)
Definition slice_from {A} (n : nat) (l : list A) : list A := drop n l.

(** ASCII lower-casing of one character. *)
Definition lower (c : ascii) : ascii :=
  let n := nat_of_ascii c in
  if ((65 <=? n) && (n <=? 90))%nat then ascii_of_nat (n + 32) else c.

Fixpoint lower_str (s : string) : string :=
  match s with
  | EmptyString => EmptyString
  | String c r => String (lower c) (lower_str r)
  end.

Definition startswith_char (c : ascii) (s : string) : bool :=
  match s with
  | String d _ => Ascii.eqb d c
  | EmptyString => false
  end.

End PyStr.

(** ** Extended regular expressions and [grep] *)

Module Ere.

Inductive regex : Type :=
| Void                      (* matches nothing *)
| Eps                       (* the empty string *)
| Lit (c : ascii)           (* a literal character; [\+] is [Lit "+"] *)
| Any                       (* [.] *)
| Cat (r1 r2 : regex)
| Alt (r1 r2 : regex)
| Star (r : regex).         (* [r*] *)

(** [r?] *)
Definition Opt (r : regex) : regex := Alt r Eps.

(** A run of literal characters. *)
Fixpoint lits (s : string) : regex :=
  match s with
  | EmptyString => Eps
  | String c r => Cat (Lit c) (lits r)
  end.

(** Comparison of a pattern character with an input character; with
    [-i] (icase) letters compare without regard to case. The folding is
    that of the ASCII letters: what [grep -i] does in the C locale, and in
    any locale on ASCII text (a UTF-8 locale folds more, the dotless i
    to I for one). *)
Definition chr_eq (icase : bool) (c d : ascii) : bool :=
  if icase then Ascii.eqb (PyStr.lower c) (PyStr.lower d) else Ascii.eqb c d.

Fixpoint nullable (r : regex) : bool :=
  match r with
  | Void => false
  | Eps => true
  | Lit _ => false
  | Any => false
  | Cat r1 r2 => nullable r1 && nullable r2
  | Alt r1 r2 => nullable r1 || nullable r2
  | Star _ => true
  end.

(** The derivative of [r] by the input character [d]. The dot takes
    any character, as in the C locale; in a UTF-8 locale it takes any
    character too but not a byte that is no valid encoding, so the two
    agree on ASCII text. *)
Fixpoint deriv (icase : bool) (d : ascii) (r : regex) : regex :=
  match r with
  | Void => Void
  | Eps => Void
  | Lit c => if chr_eq icase c d then Eps else Void
  | Any => Eps
  | Cat r1 r2 =>
      if nullable r1
      then Alt (Cat (deriv icase d r1) r2) (deriv icase d r2)
      else Cat (deriv icase d r1) r2
  | Alt r1 r2 => Alt (deriv icase d r1) (deriv icase d r2)
  | Star r1 => Cat (deriv icase d r1) (Star r1)
  end.

(** Whole-string match. *)
Fixpoint rmatch (icase : bool) (r : regex) (s : string) : bool :=
  match s with
  | EmptyString => nullable r
  | String d t => rmatch icase (deriv icase d r) t
  end.

(** [grep] selects a line when some substring of it matches. *)
Definition selects (icase : bool) (r : regex) (line : string) : bool :=
  rmatch icase (Cat (Star Any) (Cat r (Star Any))) line.

(** The strings a regular expression denotes. *)
Inductive Matches (icase : bool) : regex -> string -> Prop :=
| MEps : Matches icase Eps EmptyString
| MLit c d : chr_eq icase c d = true -> Matches icase (Lit c) (String d EmptyString)
| MAny d : Matches icase Any (String d EmptyString)
| MCat r1 r2 s1 s2 :
    Matches icase r1 s1 -> Matches icase r2 s2 -> Matches icase (Cat r1 r2) (s1 ++ s2)
| MAltL r1 r2 s : Matches icase r1 s -> Matches icase (Alt r1 r2) s
| MAltR r1 r2 s : Matches icase r2 s -> Matches icase (Alt r1 r2) s
| MStar0 r : Matches icase (Star r) EmptyString
| MStarS r s1 s2 :
    Matches icase r s1 -> Matches icase (Star r) s2 -> Matches icase (Star r) (s1 ++ s2).

Definition LF : ascii := ascii_of_nat 10.

(** The lines of a text: each is ended by LF, the last one possibly by
    the end of the text. *)
Fixpoint lines (s : string) : list string :=
  match s with
  | EmptyString => []
  | String c r =>
      if Ascii.eqb c LF then EmptyString :: lines r
      else match lines r with
           | [] => [String c EmptyString]
           | h :: t => String c h :: t
           end
  end.

Fixpoint unlines (l : list string) : string :=
  match l with
  | [] => EmptyString
  | x :: t => x ++ String LF (unlines t)
  end.

(** [grep [-i] -E r]: the selected lines on standard output; status 0
    when a line was selected and 1 when none was. *)
Definition grep (icase : bool) (r : regex) (stdin : string) : Z * string :=
  let sel := List.filter (selects icase r) (lines stdin) in
  ((match sel with [] => 1 | _ :: _ => 0 end)%Z, unlines sel).

End Ere.

(** ** The hook script *)

Module Hook.

(** [cmd: Union[str, List[str]]] *)
Inductive Cmd : Type :=
| CmdStr (s : string)
| CmdList (l : list string).

(** [cwd: Union[Path, str]] *)
Inductive Cwd : Type :=
| CwdPath (p : string)
| CwdStr (s : string).

(** The exceptions that cross the script. *)
Inductive exn : Type :=
| CalledProcessError (returncode : Z) (cmd : Cmd) (output stderr : option string)
| TimeoutExpired (cmd : Cmd) (timeout : option N)
| OSError (msg : string)
| AttributeError (msg : string)
| TypeError (msg : string)
| SystemExit (code : Z).

(** The keyword arguments of [subprocess.run]. *)
Record RunArgs : Type := {
  ra_args : Cmd;
  ra_shell : bool;
  ra_cwd : option string;
  ra_env : option (gmap string string);
  ra_check : bool;
  ra_capture_output : bool;
  ra_text : bool;
  ra_timeout : option N
}.

(** A child process as the operating system starts it. *)
Record Process : Type := {
  p_cmd : Cmd;
  p_shell : bool;
  p_cwd : option string;
  p_environ : gmap string string;
  p_timeout : option N
}.

(** What becomes of a started child, as [subprocess.run] learns it:
    it exited, and [out] and [err] are the texts that [run] hands over
    as [p.stdout] and [p.stderr] when it captures them (with [text=True]
    they are decoded and their newlines translated); the timeout expired
    first; or the child could not be started. *)
Inductive exec_result : Type :=
| Exited (returncode : Z) (out err : string)
| TimedOut
| SpawnFailed (msg : string).

(** [subprocess.CompletedProcess] *)
Record CompletedProcess : Type := {
  returncode : Z;
  cp_stdout : option string;
  cp_stderr : option string
}.

(** [argparse.Namespace] of the parser built in [main]. *)
Record Namespace : Type := { branch : option (list string) }.

(** The Python runtime and the operating system under the script. *)
Record Runtime : Type := {
  os_environ : gmap string string;
  path_absolute : string -> string;          (* [Path.absolute], as text *)
  sys_argv : list string;                    (* [sys.argv[1:]] *)
  parse_args : list string -> exn + Namespace; (* the parser built in [main] *)
  os_exec : Process -> exec_result;
  (* the timeout that [TimeoutExpired] reports: the one given to [run]
     when it expires while the outputs are read, what was left of it
     when it expires in the wait that follows *)
  os_timeout_reported : Process -> N
}.

(** What a run leaves behind: the processes it started, in order, and
    the text it printed. *)
Record Trace : Type := {
  spawned : list Process;
  printed : string
}.

Definition start : Trace := {| spawned := []; printed := EmptyString |}.

(** Computations of the script: a trace is threaded, an exception ends
    the computation. *)
Definition M (A : Type) : Type := Trace -> (exn + A) * Trace.

#[export] Instance M_ret : MRet M := fun A (x : A) t => (inr x, t).

#[export] Instance M_bind : MBind M := fun A B (f : A -> M B) (m : M A) t =>
  match m t with
  | (inl e, t') => (inl e, t')
  | (inr x, t') => f x t'
  end.

Definition raise {A} (e : exn) : M A := fun t => (inl e, t).

Definition lift {A} (r : exn + A) : M A := fun t => (r, t).

(** [try: body / except CalledProcessError: ...]: [None] when the body
    raised [CalledProcessError]; any other exception passes. *)
Definition try_CalledProcessError {A} (body : M A) : M (option A) := fun t =>
  match body t with
  | (inl (CalledProcessError _ _ _ _), t') => (inr None, t')
  | (inl e, t') => (inl e, t')
  | (inr x, t') => (inr (Some x), t')
  end.

Definition print (s : string) : M unit := fun t =>
  (inr tt, {| spawned := spawned t; printed := printed t ++ s ++ String Ere.LF EmptyString |}).

Definition spawn (p : Process) : M unit := fun t =>
  (inr tt, {| spawned := spawned t ++ [p]; printed := printed t |}).

Section Script.

Context (W : Runtime).

(** [subprocess.run(..., check=False, ...)]: with [env=None] the child
    inherits [os.environ], otherwise [env] is its whole environment;
    the outputs are present only when captured. *)
Definition subprocess_run (a : RunArgs) : M CompletedProcess :=
  let p := {| p_cmd := ra_args a; p_shell := ra_shell a; p_cwd := ra_cwd a;
              p_environ := match ra_env a with
                           | None => os_environ W
                           | Some e => e
                           end;
              p_timeout := ra_timeout a |} in
  _ ← spawn p;
  match os_exec W p with
  | Exited rc out err =>
      if ra_check a && negb (rc =? 0)%Z
      then raise (CalledProcessError rc (ra_args a)
                    (if ra_capture_output a then Some out else None)
                    (if ra_capture_output a then Some err else None))
      else mret {| returncode := rc;
                   cp_stdout := if ra_capture_output a then Some out else None;
                   cp_stderr := if ra_capture_output a then Some err else None |}
  | TimedOut =>
      raise (TimeoutExpired (ra_args a)
               (match ra_timeout a with
                | None => None
                | Some _ => Some (os_timeout_reported W p)
                end))
  | SpawnFailed msg => raise (OSError msg)
  end.

(** Truth value of [extra_env: Dict = None]. *)
Definition dict_truthy (d : option (gmap string string)) : bool :=
  match d with
  | None => false
  | Some e => negb (bool_decide (e = ∅))
  end.

(** Lines 51-53: [updated_env = os.environ.copy(); updated_env.update(extra_env)],
    bound only when [extra_env] is true. *)
Definition updated_env (extra_env : option (gmap string string)) : option (gmap string string) :=
  match extra_env with
  | Some e => if dict_truthy extra_env then Some (e ∪ os_environ W) else None
  | None => None
  end.

(** [x.rstrip()] on an output of the child: a [str] with [text=True],
    a [bytes] otherwise, [None] when it was not captured. *)
Definition output_rstrip (text : bool) (s : string) : string :=
  if text then PyStr.rstrip s else PyStr.bytes_rstrip s.



Definition attr_rstrip (text : bool) (x : option string) : M string :=
  match x with
  | Some s => mret (output_rstrip text s)
  | None => raise (AttributeError "'NoneType' object has no attribute 'rstrip'")
  end.

Definition run_cmd (cmd : Cmd) (cwd : option Cwd) (extra_env : option (gmap string string))
    (capture_output text : bool) (timeout : option N) : M (option string * option string) :=
  let shell := match cmd with CmdStr _ => true | CmdList _ => false end in
  let cwd := match cwd with
             | Some (CwdPath p) => Some (path_absolute W p)
             | Some (CwdStr s) => Some s
             | None => None
             end in
  let _updated_env := updated_env extra_env in
  p ← subprocess_run {| ra_args := cmd; ra_shell := shell; ra_cwd := cwd;
                        ra_env := extra_env; ra_check := false;
                        ra_capture_output := capture_output; ra_text := text;
                        ra_timeout := timeout |};
  if negb (returncode p =? 0)%Z
  then raise (CalledProcessError (returncode p) cmd (cp_stdout p) (cp_stderr p))
  else if capture_output
  then out ← attr_rstrip text (cp_stdout p);
       err ← attr_rstrip text (cp_stderr p);
       mret (Some out, Some err)
  else mret (None, None).

(** The child that [run_cmd] starts, and the trace once it has started. *)
Definition run_cmd_process (cmd : Cmd) (cwd : option Cwd)
    (extra_env : option (gmap string string)) (timeout : option N) : Process :=
  {| p_cmd := cmd;
     p_shell := match cmd with CmdStr _ => true | CmdList _ => false end;
     p_cwd := match cwd with
              | Some (CwdPath p) => Some (path_absolute W p)
              | Some (CwdStr s) => Some s
              | None => None
              end;
     p_environ := match extra_env with None => os_environ W | Some e => e end;
     p_timeout := timeout |}.

Definition logged (p : Process) (t : Trace) : Trace :=
  {| spawned := spawned t ++ [p]; printed := printed t |}.

Definition symbolic_ref_cmd : string := "git symbolic-ref HEAD".

Definition DQ : string := String (ascii_of_nat 34) EmptyString.

(** [r'git diff --cached | grep -iE "\+.*?FIXME" || true'] *)
Definition diff_grep_cmd : string :=
  "git diff --cached | grep -iE " ++ DQ ++ "\+.*?FIXME" ++ DQ ++ " || true".

Definition is_on_branch (protected : gset string) : M bool :=
  r ← try_CalledProcessError
         (run_cmd (CmdStr symbolic_ref_cmd) None None true true None);
  match r with
  | None => mret false
  | Some (ref_name, _) =>
      match ref_name with
      | None => raise (AttributeError "'NoneType' object has no attribute 'strip'")
      | Some ref_name =>
          let chunks := PyStr.split "/" (PyStr.strip ref_name) in
          let branch_name := PyStr.join "/" (PyStr.slice_from 2 chunks) in
          mret (bool_decide (branch_name ∈ protected))
      end
  end.

(** The children of the two calls of [run_cmd] in the script. *)
Definition symbolic_ref_process : Process :=
  run_cmd_process (CmdStr symbolic_ref_cmd) None None None.

Definition diff_grep_process : Process :=
  run_cmd_process (CmdStr diff_grep_cmd) None None None.

(** The branch name [is_on_branch] recovers from the output of
    [git symbolic-ref HEAD] (lines 68, 71 and 72). *)
Definition branch_name_of (out : string) : string :=
  PyStr.join "/" (PyStr.slice_from 2 (PyStr.split "/" (PyStr.strip (PyStr.rstrip out)))).

Definition ESC : string := String (ascii_of_nat 27) EmptyString.
Definition NL : string := String Ere.LF EmptyString.

Definition RED : string := ESC ++ "[0;31m".
Definition NC : string := ESC ++ "[0m".

(** [str(x)] for what [print] is given. *)
Definition str_of (x : option string) : string :=
  match x with Some s => s | None => "None" end.

(** [matches != ""] *)
Definition ne_empty (x : option string) : bool :=
  match x with
  | Some s => negb (PyStr.is_empty s)
  | None => true
  end.

Definition has_fixme_comments : M bool :=
  r ← run_cmd (CmdStr diff_grep_cmd) None None true true None;
  let matches := r.1 in
  if ne_empty matches
  then _ ← print (RED ++ "Error: Found FIXME in attempted commit. " ++ NL ++
                  "Please remove all occurrences of FIXME before committing." ++ NC ++ NL);
       _ ← print (str_of matches);
       mret true
  else mret false.

(** What [has_fixme_comments] prints when it finds matches. *)
Definition report (matches : string) (t : Trace) : Trace :=
  {| spawned := spawned t;
     printed := ((printed t ++
                  (RED ++ "Error: Found FIXME in attempted commit. " ++ NL ++
                   "Please remove all occurrences of FIXME before committing." ++ NC ++ NL) ++ NL)
                 ++ matches ++ NL) |}.

(** [args.branch or ('master', 'main')] *)
Definition branch_or_default (b : option (list string)) : list string :=
  match b with
  | Some (x :: l) => x :: l
  | Some [] | None => ["master"; "main"]
  end.

(** [frozenset(args.branch or ('master', 'main'))] *)
Definition protected_set (args : Namespace) : gset string :=
  list_to_set (branch_or_default (branch args)).

(** [parse_args(argv)] reads [sys.argv[1:]] when [argv] is [None]. *)
Definition argv_or_sys (argv : option (list string)) : list string :=
  match argv with Some l => l | None => sys_argv W end.

Definition main (argv : option (list string)) : M Z :=
  args ← lift (parse_args W (argv_or_sys argv));
  let protected := protected_set args in
  on_branch ← is_on_branch protected;
  if on_branch : bool
  then fixme ← has_fixme_comments;
       if fixme : bool then mret 1%Z else mret 0%Z
  else mret 0%Z.

(** [raise SystemExit(main())]: the exit status of the interpreter. An
    exception that nothing catches ends it with status 1 and a traceback. *)
Definition exit_status (r : exn + Z) : Z :=
  match r with
  | inr n => n
  | inl (SystemExit c) => c
  | inl _ => 1%Z
  end.


End Script.


(** [isinstance(cmd, str)] *)
Definition is_str (cmd : Cmd) : bool :=
  match cmd with CmdStr _ => true | CmdList _ => false end.

(** Every character of [s] is white space to [str.strip]. *)
Definition blank (s : string) : bool := forallb PyStr.isspace (list_ascii_of_string s).

End Hook.

(** ** The tools behind the two command lines *)

Module Git.

Import Hook.

(** What a tool leaves: exit status, standard output, standard error.
    A text stands both for the bytes that pass through the pipeline and
    for the [str] that Python reads from them, which are the same for
    ASCII text without carriage returns (and, character for code point,
    in a Latin-1 locale). *)
Definition result : Type := Z * string * string.

(** The part of a repository the two [git] commands read. *)
Record Repo : Type := {
  symbolic_ref : result;       (* of [git symbolic-ref HEAD] *)
  diff_cached : result         (* of [git diff --cached] *)
}.

Inductive tool : Type :=
| GitSymbolicRefHead
| GitDiffCached
| GrepE (icase : bool) (r : Ere.regex)
| TrueCmd.

(** The shell forms the command lines use. *)
Inductive sh : Type :=
| Simple (t : tool)
| Pipe (a b : sh)            (* [a | b] *)
| OrElse (a b : sh).         (* [a || b] *)

(** The pattern ["\+.*?FIXME"] as [grep -E] reads it: a literal [+],
    then an optional run of any characters (the [?] applies to the
    starred dot), then the five letters. *)
Definition fixme_ere : Ere.regex :=
  Ere.Cat (Ere.Lit "+") (Ere.Cat (Ere.Opt (Ere.Star Ere.Any)) (Ere.lits "FIXME")).

(** The shell's reading of the command lines of the script; a pipeline
    binds tighter than [||]. *)
Definition sh_parse (line : string) : option sh :=
  if String.eqb line symbolic_ref_cmd then Some (Simple GitSymbolicRefHead)
  else if String.eqb line diff_grep_cmd
  then Some (OrElse (Pipe (Simple GitDiffCached) (Simple (GrepE true fixme_ere)))
                    (Simple TrueCmd))
  else None.

Definition run_tool (repo : Repo) (t : tool) (stdin : string) : result :=
  match t with
  | GitSymbolicRefHead => symbolic_ref repo
  | GitDiffCached => diff_cached repo
  | GrepE icase r => let g := Ere.grep icase r stdin in (g.1, g.2, EmptyString)
  | TrueCmd => (0%Z, EmptyString, EmptyString)
  end.

(** The status of a pipeline is that of its last command; [a || b] runs
    [b] only when [a] ended with a status other than 0. *)
Fixpoint sh_eval (repo : Repo) (c : sh) (stdin : string) : result :=
  match c with
  | Simple t => run_tool repo t stdin
  | Pipe a b =>
      let '(_, oa, ea) := sh_eval repo a stdin in
      let '(rb, ob, eb) := sh_eval repo b oa in
      (rb, ob, ea ++ eb)
  | OrElse a b =>
      let '(ra, oa, ea) := sh_eval repo a stdin in
      if (ra =? 0)%Z then (ra, oa, ea)
      else let '(rb, ob, eb) := sh_eval repo b EmptyString in
           (rb, oa ++ ob, ea ++ eb)
  end.

Definition exec (repo : Repo) (p : Process) : exec_result :=
  match p_cmd p, p_shell p with
  | CmdStr line, true =>
      match sh_parse line with
      | Some c => let '(rc, out, err) := sh_eval repo c EmptyString in Exited rc out err
      | None => Exited 127 EmptyString "sh: command not found"
      end
  | _, _ => SpawnFailed "no such command"
  end.

(** [action='append'] *)
Definition append_branch (b : option (list string)) (v : string) : option (list string) :=
  match b with
  | None => Some [v]
  | Some l => Some (l ++ [v])%list
  end.

(** The parser built in [main]: one option, [-b]/[--branch], with
    [action='append'], and the [-h]/[--help] that argparse adds; no
    positional argument. What follows is [parse_args] of CPython 3.11 for
    this parser. *)

Inductive action : Type := Help | Branch.

Definition option_action (o : string) : option action :=
  if String.eqb o "-h" || String.eqb o "--help" then Some Help
  else if String.eqb o "-b" || String.eqb o "--branch" then Some Branch
  else None.

(** [s.split('=', 1)] when [s] has an [=]. *)
Fixpoint split_eq (s : string) : option (string * string) :=
  match s with
  | EmptyString => None
  | String c r =>
      if Ascii.eqb c "=" then Some (EmptyString, r)
      else match split_eq r with
           | Some (a, b) => Some (String c a, b)
           | None => None
           end
  end.

Definition is_digit (c : ascii) : bool :=
  let n := nat_of_ascii c in ((48 <=? n) && (n <=? 57))%nat.

Fixpoint all_digits (s : string) : bool :=
  match s with
  | EmptyString => true
  | String c r => is_digit c && all_digits r
  end.

(** One digit or more. *)
Definition digits1 (s : string) : bool := negb (PyStr.is_empty s) && all_digits s.

(** Digits, a dot, and one digit or more. *)
Fixpoint fraction (s : string) : bool :=
  match s with
  | EmptyString => false
  | String c r => if Ascii.eqb c "." then digits1 r else is_digit c && fraction r
  end.

(** [s] without the newline it may end with. *)
Fixpoint chomp (s : string) : string :=
  match s with
  | EmptyString => EmptyString
  | String c r =>
      if PyStr.is_empty r && Ascii.eqb c Ere.LF then EmptyString else String c (chomp r)
  end.

(** The matcher of negative numbers: a minus, then digits, or digits, a
    dot and digits; a newline may end the string. *)
Definition negative_number (s : string) : bool :=
  match s with
  | String c r => Ascii.eqb c "-" && (digits1 (chomp r) || fraction (chomp r))
  | EmptyString => false
  end.

Fixpoint has_space (s : string) : bool :=
  match s with
  | EmptyString => false
  | String c r => Ascii.eqb c " " || has_space r
  end.

Definition second_is_dash (s : string) : bool :=
  match s with
  | String _ (String c _) => Ascii.eqb c "-"
  | _ => false
  end.

(** How the parser reads one argument string: as an argument ([KA]),
    as the [--] that ends the options ([KDash]), or as an option
    ([KO]) with the action found for it, whether its option string has
    one dash, and the value attached to it; [KAmbiguous] when it
    abbreviates several options. *)
Inductive klass : Type :=
| KA
| KDash
| KO (act : option action) (short : bool) (explicit : option string)
| KAmbiguous.

(** The options that an argument string of the parser can stand for
    when it is not an option string itself. *)
Definition option_tuples (arg : string) : list (action * bool * option string) :=
  if second_is_dash arg
  then let pe := match split_eq arg with
                 | Some (o, e) => (o, Some e)
                 | None => (arg, None)
                 end in
       ((if String.prefix pe.1 "--help" then [(Help, false, pe.2)] else [])
        ++ (if String.prefix pe.1 "--branch" then [(Branch, false, pe.2)] else []))%list
  else match arg with
       | String _ (String c rest) =>
           if Ascii.eqb c "h" then [(Help, true, Some rest)]
           else if Ascii.eqb c "b" then [(Branch, true, Some rest)]
           else []
       | _ => []
       end.

Definition classify (arg : string) : klass :=
  if PyStr.is_empty arg then KA
  else if negb (PyStr.startswith_char "-" arg) then KA
  else match option_action arg with
       | Some a => KO (Some a) (negb (second_is_dash arg)) None
       | None =>
           if (String.length arg =? 1)%nat then KA
           else
             match match split_eq arg with
                   | Some (o, e) =>
                       match option_action o with
                       | Some a => Some (a, negb (second_is_dash o), e)
                       | None => None
                       end
                   | None => None
                   end with
             | Some (a, sh, e) => KO (Some a) sh (Some e)
             | None =>
                 match option_tuples arg with
                 | _ :: _ :: _ => KAmbiguous
                 | [(a, sh, e)] => KO (Some a) sh e
                 | [] =>
                     if negative_number arg then KA
                     else if has_space arg then KA
                     else KO None false None
                 end
             end
       end.

(** Everything after the first [--] is an argument. *)
Fixpoint classify_all (args : list string) : list (string * klass) :=
  match args with
  | [] => []
  | a :: rest =>
      if String.eqb a "--" then (a, KDash) :: map (fun x => (x, KA)) rest
      else (a, classify a) :: classify_all rest
  end.

Definition is_ambiguous (t : string * klass) : bool :=
  match t.2 with KAmbiguous => true | _ => false end.

Definition next_is_argument (rest : list (string * klass)) : bool :=
  match rest with
  | (_, KA) :: _ => true
  | _ => false
  end.

(** The exit status after [-h] with more flags written behind it:
    [h] and [b] may follow, [b] takes what is left as its value or the
    next argument; help is printed once the whole string is accepted. *)
Fixpoint cluster (e : string) (next : bool) : Z :=
  match e with
  | EmptyString => 0
  | String c e' =>
      if Ascii.eqb c "h" then (if PyStr.is_empty e' then 0 else cluster e' next)
      else if Ascii.eqb c "b"
      then (if PyStr.is_empty e' then (if next then 0 else 2) else 0)
      else 2
  end%Z.

(** The options are taken from left to right. An argument string that
    is no option or value of one, [--] included, is an unrecognized
    argument: an error at the end, with status 2, unless help or another
    error ended the run before. The value [--] attached to an option
    leaves an empty list in [args.branch], which [frozenset] in [main]
    cannot hash ([bad]): the [TypeError] of that line is answered here. *)
Fixpoint consume (toks : list (string * klass)) (acc : option (list string))
    (bad extras : bool) : exn + Namespace :=
  match toks with
  | [] =>
      if extras then inl (SystemExit 2)
      else if bad then inl (TypeError "unhashable type: 'list'")
      else inr {| branch := acc |}
  | (_, k) :: rest =>
      match k with
      | KA | KDash | KO None _ _ => consume rest acc bad true
      | KAmbiguous => inl (SystemExit 2)
      | KO (Some Help) _ None => inl (SystemExit 0)
      | KO (Some Help) sh (Some e) =>
          if sh && negb (PyStr.is_empty e)
          then inl (SystemExit (cluster e (next_is_argument rest)))
          else inl (SystemExit 2)
      | KO (Some Branch) _ (Some e) =>
          if String.eqb e "--" then consume rest acc true extras
          else consume rest (append_branch acc e) bad extras
      | KO (Some Branch) _ None =>
          match rest with
          | (v, KA) :: rest' => consume rest' (append_branch acc v) bad extras
          | _ => inl (SystemExit 2)
          end
      end
  end.

Definition argparse (args : list string) (acc : option (list string)) : exn + Namespace :=
  let toks := classify_all args in
  if existsb is_ambiguous toks then inl (SystemExit 2)
  else consume toks acc false false.

(** A host: the process environment, working directory and arguments of
    the interpreter, and the repository it runs in. *)
Record Host : Type := {
  environ : gmap string string;
  getcwd : string;
  argv : list string;
  repo : Repo
}.

(** [str(Path(p).absolute())], for [p] the text of a path as pathlib
    writes it ([.] for the path without parts): an absolute path is
    kept, any other is put under the working directory, without
    normalisation. *)
Definition absolute (cwd p : string) : string :=
  if PyStr.startswith_char "/" p then p
  else if String.eqb p "." then cwd
  else if String.eqb cwd "/" then cwd ++ p
  else cwd ++ "/" ++ p.

Definition runtime (h : Host) : Runtime :=
  {| os_environ := environ h;
     path_absolute := absolute (getcwd h);
     sys_argv := argv h;
     parse_args := fun args => argparse args None;
     os_exec := exec (repo h);
     os_timeout_reported := fun p => match p_timeout p with Some n => n | None => 0%N end |}.



Definition staged_diff (h : Host) : string := (diff_cached (repo h)).1.2.


(** A host on branch [name] with the staged diff [diff]. *)
Definition on_branch_with (name diff : string) : Host :=
  {| environ := ∅; getcwd := "/repo"; argv := [];
     repo := {| symbolic_ref := (0%Z, "refs/heads/" ++ name ++ NL, EmptyString);
                diff_cached := (0%Z, diff, EmptyString) |} |}.

(** A diff line is an added line when it begins with [+]. *)
Definition added_line (l : string) : bool := PyStr.startswith_char "+" l.

(** [m] is the marker in some letter-casing. *)
Definition is_marker (m : string) : Prop := PyStr.lower_str m = "fixme".

(** The line contains the marker in some letter-casing. *)
Definition contains_marker (l : string) : Prop :=
  exists a m c, l = a ++ m ++ c /\ is_marker m.

Fixpoint prefix_ci (p s : string) : bool :=
  match p, s with
  | EmptyString, _ => true
  | String c p', String d s' => Ascii.eqb (PyStr.lower c) (PyStr.lower d) && prefix_ci p' s'
  | String _ _, EmptyString => false
  end.

(** Decision of [contains_marker]. *)
Fixpoint has_marker (l : string) : bool :=
  prefix_ci "fixme" l ||
  match l with
  | EmptyString => false
  | String _ r => has_marker r
  end.

(** The line has a [+] somewhere and the marker, in some letter-casing,
    somewhere after it. *)
Definition plus_then_marker (l : string) : Prop :=
  exists a b m c, l = a ++ String "+" (b ++ m ++ c) /\ is_marker m.

(** The lines of a diff that the [grep] of the script selects. *)
Definition selected (diff : string) : list string :=
  List.filter (Ere.selects true fixme_ere) (Ere.lines diff).


End Git.

(** ** Sample runs *)

Module Samples.

Import Hook Git.

(** A change whose only line with the marker is a removed line. *)
Definition diff_removed : string :=
"diff --git a/calc.py b/calc.py
index 1111111..2222222 100644
--- a/calc.py
+++ b/calc.py
@@ -1,2 +1 @@
 x = 1
-y = a + b  # FIXME
".

(** A change whose only line with the marker is a context line. *)
Definition diff_context : string :=
"diff --git a/calc.py b/calc.py
index 1111111..2222222 100644
--- a/calc.py
+++ b/calc.py
@@ -1,3 +1,3 @@
 total = a + b  # fixme: overflow
-print(total)
+print(str(total))
".

(** A change that adds a line with the marker. *)
Definition diff_added : string :=
"diff --git a/calc.py b/calc.py
index 1111111..2222222 100644
--- a/calc.py
+++ b/calc.py
@@ -1 +1,2 @@
 x = 1
+    // FixMe: handle edge case
".

(** A change that removes a line with the marker and has no [+] before it. *)
Definition diff_removed_plain : string :=
"diff --git a/calc.py b/calc.py
index 1111111..2222222 100644
--- a/calc.py
+++ b/calc.py
@@ -1,2 +1 @@
 x = 1
-# FIXME: tidy up
".

(** A change without the marker. *)
Definition diff_clean : string :=
"diff --git a/calc.py b/calc.py
index 1111111..2222222 100644
--- a/calc.py
+++ b/calc.py
@@ -1 +1,2 @@
 x = 1
+y = 2
".

(** No added line of the diff contains the marker. *)
Definition no_added_marker (diff : string) : bool :=
  forallb (fun l => negb (added_line l && has_marker l)) (Ere.lines diff).

(** Detached HEAD: the branch lookup fails. *)
Definition detached : Host :=
  {| environ := ∅; getcwd := "/repo"; argv := [];
     repo := {| symbolic_ref := (128%Z, EmptyString, "fatal: ref HEAD is not a symbolic ref");
                diff_cached := (0%Z, diff_added, EmptyString) |} |}.



Definition path_env : gmap string string := {[ "PATH" := "/usr/bin" ]}.

(** On a feature branch, with a variable in the process environment. *)
Definition feature_host : Host :=
  {| environ := {[ "HOME" := "/home/dev" ]}; getcwd := "/repo"; argv := [];
     repo := {| symbolic_ref := (0%Z, "refs/heads/feature/x" ++ NL, EmptyString);
                diff_cached := (0%Z, diff_added, EmptyString) |} |}.


(** The no-break space, U+00A0: white space to [str.strip], and a
    character that git admits in a branch name. *)
Definition NBSP : string := String (ascii_of_nat 160) EmptyString.

(** A host whose HEAD is the symbolic reference [ref]. *)
Definition head_at (ref diff : string) : Host :=
  {| environ := ∅; getcwd := "/repo"; argv := [];
     repo := {| symbolic_ref := (0%Z, ref ++ NL, EmptyString);
                diff_cached := (0%Z, diff, EmptyString) |} |}.

End Samples.

(** * Properties *)

(** ** Strings *)

Section StrFacts.

Lemma app_empty_r (s : string) : s ++ "" = s.
Proof. induction s; simpl; congruence. Qed.

Lemma app_assoc (a b c : string) : (a ++ b) ++ c = a ++ (b ++ c).
Proof. induction a; simpl; congruence. Qed.

Lemma app_eq_empty (a b : string) : a ++ b = "" -> a = "" /\ b = "".
Proof. destruct a; simpl; [auto | discriminate]. Qed.

Lemma is_empty_true (s : string) : PyStr.is_empty s = true <-> s = "".
Proof. destruct s; simpl; split; congruence. Qed.

Lemma rstrip_by_keeps (sp : ascii -> bool) (a b : string) (c : ascii) :
  sp c = false -> PyStr.is_empty (PyStr.rstrip_by sp (a ++ String c b)) = false.
Proof.
  intros Hc. induction a as [| x a IH]; simpl.
  - rewrite Hc, andb_false_r. reflexivity.
  - rewrite IH. reflexivity.
Qed.

Lemma rstrip_by_app (sp : ascii -> bool) (a b : string) :
  PyStr.rstrip_by sp (a ++ b) =
  if PyStr.is_empty (PyStr.rstrip_by sp b) then PyStr.rstrip_by sp a
  else a ++ PyStr.rstrip_by sp b.
Proof.
  induction a as [| x a IH]; simpl.
  - destruct (PyStr.rstrip_by sp b); reflexivity.
  - rewrite IH. destruct (PyStr.is_empty (PyStr.rstrip_by sp b)) eqn:E; [reflexivity |].
    destruct (PyStr.rstrip_by sp b) as [| y r] eqn:Eb; [discriminate |].
    destruct a; reflexivity.
Qed.

Lemma rstrip_by_idem (sp : ascii -> bool) (s : string) :
  PyStr.rstrip_by sp (PyStr.rstrip_by sp s) = PyStr.rstrip_by sp s.
Proof.
  induction s as [| c s IH]; simpl; [reflexivity |].
  destruct (PyStr.is_empty (PyStr.rstrip_by sp s) && sp c) eqn:E; [reflexivity |].
  simpl. rewrite IH, E. reflexivity.
Qed.


Lemma rstrip_keeps (a b : string) (c : ascii) :
  PyStr.isspace c = false -> PyStr.is_empty (PyStr.rstrip (a ++ String c b)) = false.
Proof. apply rstrip_by_keeps. Qed.

Lemma rstrip_app (a b : string) :
  PyStr.rstrip (a ++ b) =
  if PyStr.is_empty (PyStr.rstrip b) then PyStr.rstrip a else a ++ PyStr.rstrip b.
Proof. apply rstrip_by_app. Qed.

Lemma rstrip_idem (s : string) : PyStr.rstrip (PyStr.rstrip s) = PyStr.rstrip s.
Proof. apply rstrip_by_idem. Qed.

Lemma split_not_nil (sep : ascii) (s : string) : PyStr.split sep s <> [].
Proof.
  destruct s as [| c s]; simpl; [discriminate |].
  destruct (Ascii.eqb c sep); [discriminate |].
  destruct (PyStr.split sep s); discriminate.
Qed.

Lemma join_cons_char (sep : string) (c : ascii) (h : string) (t : list string) :
  PyStr.join sep (String c h :: t) = String c (PyStr.join sep (h :: t)).
Proof. destruct t; reflexivity. Qed.

(** Joining what was split gives the string back. *)
Lemma join_split (sep : ascii) (s : string) :
  PyStr.join (String sep "") (PyStr.split sep s) = s.
Proof.
  induction s as [| c s IH]; simpl; [reflexivity |].
  destruct (Ascii.eqb c sep) eqn:E.
  - apply Ascii.eqb_eq in E. subst c.
    destruct (PyStr.split sep s) as [| h t] eqn:Es; [now apply split_not_nil in Es |].
    change (PyStr.join (String sep "") ("" :: h :: t))
      with (String sep (PyStr.join (String sep "") (h :: t))).
    rewrite IH. reflexivity.
  - destruct (PyStr.split sep s) as [| h t] eqn:Es; [now apply split_not_nil in Es |].
    rewrite join_cons_char, IH. reflexivity.
Qed.

(** A separator after a piece free of it ends the first chunk. *)
Lemma split_first (sep : ascii) (a b : string) :
  PyStr.split sep a = [a] ->
  PyStr.split sep (a ++ String sep b) = a :: PyStr.split sep b.
Proof.
  revert b. induction a as [| c a IH]; intros b H; simpl in *.
  - rewrite Ascii.eqb_refl. reflexivity.
  - destruct (Ascii.eqb c sep); [discriminate |].
    destruct (PyStr.split sep a) as [| h t] eqn:Ea; [now apply split_not_nil in Ea |].
    injection H as -> ->. rewrite IH by reflexivity. reflexivity.
Qed.

End StrFacts.

(** ** Regular expressions *)

Section EreFacts.

Import Ere.

Context (icase : bool).

Lemma nullable_Matches (r : regex) : nullable r = true <-> Matches icase r "".
Proof.
  induction r; simpl; split; intros H.
  - discriminate.
  - inversion H.
  - constructor.
  - reflexivity.
  - discriminate.
  - inversion H.
  - discriminate.
  - inversion H.
  - apply andb_prop in H as [H1 H2].
    change "" with ("" ++ ""). constructor; [apply IHr1 | apply IHr2]; assumption.
  - inversion H; subst.
    match goal with E : _ ++ _ = "" |- _ => apply app_eq_empty in E as [-> ->] end.
    apply andb_true_intro; split; [apply IHr1 | apply IHr2]; assumption.
  - apply orb_prop in H as [H | H]; [apply MAltL, IHr1 | apply MAltR, IHr2]; assumption.
  - inversion H; subst; apply orb_true_intro;
      [left; apply IHr1 | right; apply IHr2]; assumption.
  - constructor.
  - reflexivity.
Qed.

Lemma deriv_sound (d : ascii) (r : regex) :
  forall s, Matches icase (deriv icase d r) s -> Matches icase r (String d s).
Proof.
  induction r; simpl; intros s H.
  - inversion H.
  - inversion H.
  - destruct (chr_eq icase c d) eqn:E; inversion H; subst. constructor; assumption.
  - inversion H; subst. constructor.
  - destruct (nullable r1) eqn:N.
    + inversion H; subst.
      * match goal with M : Matches _ (Cat _ _) _ |- _ => inversion M; subst end.
        change (String d (?a ++ ?b)) with (String d a ++ b).
        constructor; auto.
      * change (String d s) with ("" ++ String d s).
        constructor; [apply nullable_Matches; assumption | auto].
    + inversion H; subst.
      change (String d (?a ++ ?b)) with (String d a ++ b).
      constructor; auto.
  - inversion H; subst; [apply MAltL | apply MAltR]; auto.
  - inversion H; subst.
    change (String d (?a ++ ?b)) with (String d a ++ b).
    constructor; auto.
Qed.

Lemma deriv_complete (d : ascii) (r : regex) (w : string) :
  Matches icase r w -> forall t, w = String d t -> Matches icase (deriv icase d r) t.
Proof.
  induction 1 as [| c d' Hc | d' | r1 r2 s1 s2 H1 IH1 H2 IH2 | r1 r2 s H1 IH1
                  | r1 r2 s H1 IH1 | r | r s1 s2 H1 IH1 H2 IH2];
    intros t E; simpl.
  - discriminate.
  - injection E as -> <-. rewrite Hc. constructor.
  - injection E as -> <-. constructor.
  - destruct s1 as [| c s1'].
    + simpl in E. subst s2.
      assert (N : nullable r1 = true) by (apply nullable_Matches; assumption).
      rewrite N. apply MAltR. apply IH2. reflexivity.
    + simpl in E. injection E as -> <-.
      destruct (nullable r1).
      * apply MAltL. constructor; auto.
      * constructor; auto.
  - apply MAltL; auto.
  - apply MAltR; auto.
  - discriminate.
  - destruct s1 as [| c s1'].
    + simpl in E. apply IH2 in E. simpl in E. exact E.
    + simpl in E. injection E as -> <-. constructor; auto.
Qed.

Lemma rmatch_Matches (s : string) :
  forall r, rmatch icase r s = true <-> Matches icase r s.
Proof.
  induction s as [| d s IH]; intros r; simpl.
  - apply nullable_Matches.
  - rewrite IH. split.
    + apply deriv_sound.
    + intros H. eapply deriv_complete; eauto.
Qed.

Lemma Matches_star_any (s : string) : Matches icase (Star Any) s.
Proof.
  induction s as [| c s IH].
  - constructor.
  - change (String c s) with (String c "" ++ s). constructor; [constructor | exact IH].
Qed.

(** [grep] selects a line exactly when a substring of it matches. *)
Lemma selects_substring (r : regex) (line : string) :
  selects icase r line = true <->
  exists a m c, line = a ++ m ++ c /\ Matches icase r m.
Proof.
  unfold selects. rewrite rmatch_Matches. split.
  - intros H. inversion H; subst.
    match goal with M : Matches _ (Cat r _) _ |- _ => inversion M; subst end.
    eauto.
  - intros (a & m & c & -> & H).
    constructor; [apply Matches_star_any |].
    constructor; [exact H | apply Matches_star_any].
Qed.

End EreFacts.

(** ** The script over any runtime *)

Section HookFacts.

Import Hook.

Context (W : Runtime).

Lemma bind_run {A B} (m : M A) (f : A -> M B) (t : Trace) :
  (m ≫= f) t = match m t with
               | (inl e, t') => (inl e, t')
               | (inr x, t') => f x t'
               end.
Proof. reflexivity. Qed.

(** [run_cmd] starts one child and turns its fate into a result. *)
Lemma run_cmd_run cmd cwd extra_env capture text timeout (t : Trace) :
  run_cmd W cmd cwd extra_env capture text timeout t =
  let p := run_cmd_process W cmd cwd extra_env timeout in
  match os_exec W p with
  | Exited rc out err =>
      if (rc =? 0)%Z
      then (inr (if capture
                 then (Some (output_rstrip text out), Some (output_rstrip text err))
                 else (None, None)), logged p t)
      else (inl (CalledProcessError rc cmd
                   (if capture then Some out else None)
                   (if capture then Some err else None)), logged p t)
  | TimedOut =>
      (inl (TimeoutExpired cmd
              (match timeout with
               | None => None
               | Some _ => Some (os_timeout_reported W p)
               end)), logged p t)
  | SpawnFailed msg => (inl (OSError msg), logged p t)
  end.
Proof.
  unfold run_cmd, subprocess_run, run_cmd_process. rewrite !bind_run. simpl.
  match goal with |- context [os_exec W ?p] => destruct (os_exec W p) as [rc out err | | msg] end;
    simpl; try reflexivity.
  destruct (rc =? 0)%Z; simpl; [| reflexivity].
  destruct capture; reflexivity.
Qed.

Lemma is_on_branch_run (protected : gset string) (t : Trace) :
  is_on_branch W protected t =
  let p := symbolic_ref_process W in
  match os_exec W p with
  | Exited rc out err =>
      if (rc =? 0)%Z
      then (inr (bool_decide (branch_name_of out ∈ protected)), logged p t)
      else (inr false, logged p t)
  | TimedOut => (inl (TimeoutExpired (CmdStr symbolic_ref_cmd) None), logged p t)
  | SpawnFailed msg => (inl (OSError msg), logged p t)
  end.
Proof.
  unfold is_on_branch. rewrite bind_run. unfold try_CalledProcessError.
  rewrite run_cmd_run. fold (symbolic_ref_process W). simpl.
  destruct (os_exec W (symbolic_ref_process W)) as [rc out err | | msg]; try reflexivity.
  destruct (rc =? 0)%Z; reflexivity.
Qed.

Lemma has_fixme_comments_run (t : Trace) :
  has_fixme_comments W t =
  let p := diff_grep_process W in
  match os_exec W p with
  | Exited rc out err =>
      if (rc =? 0)%Z
      then if PyStr.is_empty (PyStr.rstrip out)
           then (inr false, logged p t)
           else (inr true, report (PyStr.rstrip out) (logged p t))
      else (inl (CalledProcessError rc (CmdStr diff_grep_cmd) (Some out) (Some err)),
            logged p t)
  | TimedOut => (inl (TimeoutExpired (CmdStr diff_grep_cmd) None), logged p t)
  | SpawnFailed msg => (inl (OSError msg), logged p t)
  end.
Proof.
  unfold has_fixme_comments. rewrite bind_run, run_cmd_run.
  fold (diff_grep_process W). simpl.
  destruct (os_exec W (diff_grep_process W)) as [rc out err | | msg]; try reflexivity.
  destruct (rc =? 0)%Z; [| reflexivity].
  simpl. destruct (PyStr.is_empty (PyStr.rstrip out)); reflexivity.
Qed.

Lemma main_run (argv : option (list string)) (t : Trace) :
  main W argv t =
  match parse_args W (argv_or_sys W argv) with
  | inl e => (inl e, t)
  | inr args =>
      match is_on_branch W (protected_set args) t with
      | (inl e, t') => (inl e, t')
      | (inr true, t') =>
          match has_fixme_comments W t' with
          | (inl e, t'') => (inl e, t'')
          | (inr true, t'') => (inr 1%Z, t'')
          | (inr false, t'') => (inr 0%Z, t'')
          end
      | (inr false, t') => (inr 0%Z, t')
      end
  end.
Proof.
  unfold main. rewrite bind_run. unfold lift.
  destruct (parse_args W _) as [e | args]; [reflexivity |].
  rewrite bind_run.
  destruct (is_on_branch W (protected_set args) t) as [[e | []] t']; try reflexivity.
  rewrite bind_run.
  destruct (has_fixme_comments W t') as [[e | []] t'']; reflexivity.
Qed.


Lemma run_cmd_spawned cmd cwd extra_env capture text timeout (t : Trace) :
  (run_cmd W cmd cwd extra_env capture text timeout t).2 =
  logged (run_cmd_process W cmd cwd extra_env timeout) t.
Proof.
  rewrite run_cmd_run. cbv zeta.
  destruct (os_exec W _) as [rc out err | | msg]; try reflexivity.
  destruct (rc =? 0)%Z; reflexivity.
Qed.


(** From [refs/heads/<name>] the script recovers the name without its
    trailing white space. *)
Lemma branch_name_of_heads (name : string) :
  branch_name_of ("refs/heads/" ++ name ++ NL) = PyStr.rstrip name.
Proof.
  unfold branch_name_of, PyStr.strip.
  assert (E : PyStr.rstrip ("refs/heads/" ++ name ++ NL) =
              "refs/heads/" ++ PyStr.rstrip name).
  { rewrite <- app_assoc, rstrip_app.
    change (PyStr.is_empty (PyStr.rstrip NL)) with true. cbv iota.
    rewrite rstrip_app. destruct (PyStr.rstrip name); reflexivity. }
  rewrite E.
  assert (E' : PyStr.rstrip ("refs/heads/" ++ PyStr.rstrip name) =
               "refs/heads/" ++ PyStr.rstrip name).
  { rewrite <- E at 2. rewrite <- E. apply rstrip_idem. }
  rewrite E'.
  change (PyStr.lstrip ("refs/heads/" ++ PyStr.rstrip name))
    with ("refs" ++ String "/" ("heads" ++ String "/" (PyStr.rstrip name))).
  rewrite split_first by reflexivity. rewrite split_first by reflexivity.
  unfold PyStr.slice_from. simpl drop. apply join_split.
Qed.

(** A failed branch lookup is answered with [False]. *)
Lemma is_on_branch_failed (protected : gset string) (t : Trace) rc out err :
  os_exec W (symbolic_ref_process W) = Exited rc out err -> rc <> 0%Z ->
  is_on_branch W protected t = (inr false, logged (symbolic_ref_process W) t).
Proof.
  intros He Hrc. rewrite is_on_branch_run. cbv zeta. rewrite He.
  destruct (Z.eqb_spec rc 0); [contradiction | reflexivity].
Qed.


End HookFacts.

(** ** The pattern of the script *)

Section PatternFacts.

Import Ere Git.

Lemma lower_plus (d : ascii) : PyStr.lower d = "+"%char -> d = "+"%char.
Proof.
  destruct d as [[] [] [] [] [] [] [] []]; vm_compute; intros H;
    solve [reflexivity | discriminate H].
Qed.

Lemma lower_str_app (a b : string) :
  PyStr.lower_str (a ++ b) = PyStr.lower_str a ++ PyStr.lower_str b.
Proof. induction a; simpl; congruence. Qed.

(** With [-i], a run of literals matches the strings that are equal to
    it once both are lower-cased. *)
Lemma lits_icase (p : string) :
  forall m, Matches true (lits p) m <-> PyStr.lower_str m = PyStr.lower_str p.
Proof.
  induction p as [| c p IH]; intros m; simpl.
  - split.
    + intros H. inversion H. reflexivity.
    + destruct m; simpl; [constructor | discriminate].
  - split.
    + intros H. inversion H as [| | | r1 r2 s1 s2 H1 H2 | | | |]; subst.
      inversion H1 as [| c' d Hc | | | | | |]; subst. simpl.
      unfold chr_eq in Hc. apply Ascii.eqb_eq in Hc.
      apply IH in H2. congruence.
    + destruct m as [| d m]; simpl; [discriminate |].
      intros H. injection H as Hd Hm.
      change (String d m) with (String d "" ++ m).
      constructor; [constructor | apply IH; assumption].
      unfold chr_eq. apply Ascii.eqb_eq. congruence.
Qed.

Lemma fixme_ere_Matches (m : string) :
  Matches true fixme_ere m <-> exists b k, m = String "+" (b ++ k) /\ is_marker k.
Proof.
  unfold fixme_ere, is_marker. split.
  - intros H. inversion H as [| | | r1 r2 s1 s2 H1 H2 | | | |]; subst.
    inversion H1 as [| c' d Hc | | | | | |]; subst.
    unfold chr_eq in Hc. apply Ascii.eqb_eq in Hc. symmetry in Hc.
    apply lower_plus in Hc. subst d.
    inversion H2 as [| | | r1 r2 s3 s4 H3 H4 | | | |]; subst.
    apply (lits_icase "FIXME") in H4. exists s3, s4. split; [reflexivity | exact H4].
  - intros (b & k & -> & Hk).
    change (String "+" (b ++ k)) with (String "+" "" ++ (b ++ k)).
    constructor; [constructor; reflexivity |].
    constructor; [apply MAltL, Matches_star_any |].
    apply (lits_icase "FIXME"). exact Hk.
Qed.

(** The [grep] of the script selects the lines that have a [+] anywhere
    and the marker anywhere after it. *)
Lemma selects_fixme (l : string) :
  selects true fixme_ere l = true <-> plus_then_marker l.
Proof.
  rewrite selects_substring. unfold plus_then_marker. split.
  - intros (a & m & c & -> & H). apply fixme_ere_Matches in H as (b & k & -> & Hk).
    exists a, b, k, c. split; [| exact Hk].
    simpl. rewrite app_assoc. reflexivity.
  - intros (a & b & k & c & -> & Hk).
    exists a, (String "+" (b ++ k)), c. split.
    + simpl. rewrite app_assoc. reflexivity.
    + apply fixme_ere_Matches. eauto.
Qed.

Lemma prefix_ci_spec (p : string) :
  forall l, prefix_ci p l = true <->
            exists m c, l = m ++ c /\ PyStr.lower_str m = PyStr.lower_str p.
Proof.
  induction p as [| x p IH]; intros l; simpl.
  - split; [intros _; exists "", l; auto |]. reflexivity.
  - destruct l as [| d l].
    + split; [discriminate |].
      intros (m & c & E & Hm). symmetry in E. apply app_eq_empty in E as [-> ->].
      discriminate.
    + rewrite andb_true_iff, Ascii.eqb_eq, IH. split.
      * intros (Hx & m & c & -> & Hm). exists (String d m), c. simpl.
        split; [reflexivity | congruence].
      * intros (m & c & E & Hm). destruct m as [| y m]; [discriminate |].
        simpl in E, Hm. injection E as -> ->. injection Hm as Hy Hm.
        split; [congruence | eauto].
Qed.

Lemma has_marker_spec (l : string) : has_marker l = true <-> contains_marker l.
Proof.
  unfold contains_marker, is_marker. induction l as [| d l IH].
  - simpl. split; [discriminate |].
    intros (a & m & c & E & Hm). symmetry in E.
    apply app_eq_empty in E as [_ E]. apply app_eq_empty in E as [-> _]. discriminate.
  - change (has_marker (String d l)) with (prefix_ci "fixme" (String d l) || has_marker l).
    rewrite orb_true_iff, prefix_ci_spec, IH. split.
    + intros [(m & c & E & Hm) | (a & m & c & -> & Hm)].
      * exists "", m, c. auto.
      * exists (String d a), m, c. auto.
    + intros (a & m & c & E & Hm). destruct a as [| x a].
      * left. exists m, c. auto.
      * right. simpl in E. injection E as -> ->. eauto.
Qed.

(** An added line that contains the marker is selected. *)
Lemma added_marker_selected (l : string) :
  added_line l = true -> contains_marker l -> plus_then_marker l.
Proof.
  intros Ha (a & m & c & -> & Hm). destruct a as [| x a].
  - destruct m as [| y m]; [discriminate |].
    simpl in Ha. apply Ascii.eqb_eq in Ha. subst y. discriminate.
  - simpl in Ha. apply Ascii.eqb_eq in Ha. subst x.
    exists "", a, m, c. auto.
Qed.

(** A selected line has a character that is not white space. *)
Lemma selected_has_plus (l : string) :
  selects true fixme_ere l = true -> exists a b, l = a ++ String "+" b.
Proof.
  intros H. apply selects_fixme in H as (a & b & m & c & -> & _). eauto.
Qed.

Lemma selected_In (diff l : string) :
  In l (selected diff) <-> In l (lines diff) /\ plus_then_marker l.
Proof. unfold selected. rewrite filter_In, selects_fixme. reflexivity. Qed.

(** The text [grep] writes is blank exactly when it selected nothing. *)
Lemma rstrip_unlines_selected (diff : string) :
  PyStr.is_empty (PyStr.rstrip (unlines (selected diff))) =
  match selected diff with [] => true | _ :: _ => false end.
Proof.
  destruct (selected diff) as [| l t] eqn:E; [reflexivity |].
  assert (Hl : In l (selected diff)) by (rewrite E; left; reflexivity).
  unfold selected in Hl. apply filter_In in Hl as [_ Hl].
  apply selected_has_plus in Hl as (a & b & ->).
  simpl. rewrite app_assoc. simpl. apply rstrip_keeps. reflexivity.
Qed.

End PatternFacts.

(** ** The script in a repository *)

Section GitFacts.

Import Ere Hook Git.

Lemma sh_parse_symbolic_ref :
  sh_parse symbolic_ref_cmd = Some (Simple GitSymbolicRefHead).
Proof. reflexivity. Qed.

Lemma sh_parse_diff_grep :
  sh_parse diff_grep_cmd =
  Some (OrElse (Pipe (Simple GitDiffCached) (Simple (GrepE true fixme_ere)))
               (Simple TrueCmd)).
Proof. reflexivity. Qed.


(** Whatever the statuses of [git diff] and [grep], the command line
    ends with status 0, and its output is the selected lines. *)
Lemma exec_diff_grep (h : Host) :
  exists err,
    os_exec (runtime h) (diff_grep_process (runtime h)) =
    Exited 0 (unlines (selected (staged_diff h))) err.
Proof.
  unfold runtime, exec, diff_grep_process, run_cmd_process, staged_diff, selected, grep.
  simpl.
  destruct (diff_cached (repo h)) as [[rd od] ed]. simpl.
  destruct (List.filter (selects true fixme_ere) (lines od)) as [| l sel]; simpl.
  - eexists. reflexivity.
  - eexists. reflexivity.
Qed.

Lemma git_has_fixme_comments (h : Host) (t : Trace) :
  has_fixme_comments (runtime h) t =
  let t' := logged (diff_grep_process (runtime h)) t in
  match selected (staged_diff h) with
  | [] => (inr false, t')
  | _ :: _ => (inr true, report (PyStr.rstrip (unlines (selected (staged_diff h)))) t')
  end.
Proof.
  rewrite has_fixme_comments_run. cbv zeta.
  destruct (exec_diff_grep h) as [err ->]. simpl.
  rewrite rstrip_unlines_selected. destruct (selected (staged_diff h)); reflexivity.
Qed.

(** On a protected branch the exit code is 1 exactly when [grep]
    selected a line. *)
Lemma git_main_protected (h : Host) argv args (t t' : Trace) :
  parse_args (runtime h) (argv_or_sys (runtime h) argv) = inr args ->
  is_on_branch (runtime h) (protected_set args) t = (inr true, t') ->
  (main (runtime h) argv t).1 =
  inr (match selected (staged_diff h) with [] => 0 | _ :: _ => 1 end)%Z.
Proof.
  intros Hp Hb. rewrite main_run, Hp, Hb, git_has_fixme_comments. simpl.
  destruct (selected (staged_diff h)); reflexivity.
Qed.

(** The half of the marker rule that the script keeps: an added line
    with the marker, in any letter-casing, blocks the commit. *)
Lemma added_marker_blocks (h : Host) argv args (t t' : Trace) (l : string) :
  parse_args (runtime h) (argv_or_sys (runtime h) argv) = inr args ->
  is_on_branch (runtime h) (protected_set args) t = (inr true, t') ->
  In l (lines (staged_diff h)) -> added_line l = true -> contains_marker l ->
  (main (runtime h) argv t).1 = inr 1%Z.
Proof.
  intros Hp Hb Hl Ha Hm. rewrite (git_main_protected h argv args t t' Hp Hb).
  assert (Hs : In l (selected (staged_diff h))).
  { apply selected_In. split; [exact Hl | apply added_marker_selected; assumption]. }
  destruct (selected (staged_diff h)); [destruct Hs | reflexivity].
Qed.

(** Without a line that has a [+] before the marker, the commit passes. *)
Lemma no_plus_marker_allows (h : Host) argv args (t t' : Trace) :
  parse_args (runtime h) (argv_or_sys (runtime h) argv) = inr args ->
  is_on_branch (runtime h) (protected_set args) t = (inr true, t') ->
  (forall l, In l (lines (staged_diff h)) -> ~ plus_then_marker l) ->
  (main (runtime h) argv t).1 = inr 0%Z.
Proof.
  intros Hp Hb Hn. rewrite (git_main_protected h argv args t t' Hp Hb).
  destruct (selected (staged_diff h)) as [| l sel] eqn:E; [reflexivity |].
  assert (Hs : In l (selected (staged_diff h))) by (rewrite E; left; reflexivity).
  apply selected_In in Hs as [Hl Hm]. destruct (Hn l Hl Hm).
Qed.

End GitFacts.

(** * The contract *)

Section Contract.

Import Hook.


(** C9: with a dictionary that is not empty as [extra_env], the child is
    started with that dictionary as its whole environment; the merged
    environment of lines 52-53 is computed and not passed on, so a
    variable of [os.environ] that the dictionary lacks is in the merged
    environment and not in the child's. *)
Theorem C9_extra_env_replaces (W : Runtime) cmd cwd (d : gmap string string)
    capture text timeout (t : Trace) :
  d <> ∅ ->
  updated_env W (Some d) = Some (d ∪ os_environ W) /\
  exists p,
    spawned (run_cmd W cmd cwd (Some d) capture text timeout t).2 = (spawned t ++ [p])%list /\
    p_cmd p = cmd /\ p_environ p = d /\
    forall k v, os_environ W !! k = Some v -> d !! k = None ->
                p_environ p !! k = None /\ (d ∪ os_environ W) !! k = Some v.
Proof.
  intros Hd. split.
  - unfold updated_env, dict_truthy. rewrite bool_decide_eq_false_2 by exact Hd. reflexivity.
  - exists (run_cmd_process W cmd cwd (Some d) timeout).
    rewrite run_cmd_spawned. repeat split; try reflexivity.
    + simpl. assumption.
    + apply lookup_union_Some_raw. right. auto.
Qed.

(** C10: an empty dictionary as [extra_env] skips the merge and is still
    passed on, so the child starts with an empty environment; only
    [extra_env=None] lets the child inherit [os.environ]. *)
Theorem C10_empty_extra_env (W : Runtime) cmd cwd capture text timeout (t : Trace) :
  updated_env W (Some ∅) = None /\
  (exists p,
     spawned (run_cmd W cmd cwd (Some ∅) capture text timeout t).2 = (spawned t ++ [p])%list /\
     p_cmd p = cmd /\ p_environ p = ∅) /\
  (exists p,
     spawned (run_cmd W cmd cwd None capture text timeout t).2 = (spawned t ++ [p])%list /\
     p_cmd p = cmd /\ p_environ p = os_environ W).
Proof.
  split; [reflexivity |]. split.
  - exists (run_cmd_process W cmd cwd (Some ∅) timeout).
    rewrite run_cmd_spawned. repeat split.
  - exists (run_cmd_process W cmd cwd None timeout).
    rewrite run_cmd_spawned. repeat split.
Qed.

(** C5: when [git symbolic-ref HEAD] ends with a status other than 0,
    [is_on_branch] returns [False] for every protected set, without an
    exception, and [main] returns 0, so the interpreter exits with 0. *)
Theorem C5_lookup_failure_allows (W : Runtime) (protected : gset string)
    (t : Trace) (rc : Z) (out err : string) :
  os_exec W (symbolic_ref_process W) = Exited rc out err -> rc <> 0%Z ->
  (is_on_branch W protected t).1 = inr false /\
  forall argv args,
    parse_args W (argv_or_sys W argv) = inr args ->
    (main W argv t).1 = inr 0%Z /\ exit_status (main W argv t).1 = 0%Z.
Proof.
  intros He Hrc. split.
  - rewrite (is_on_branch_failed W protected t rc out err He Hrc). reflexivity.
  - intros argv args Hp.
    rewrite main_run, Hp, (is_on_branch_failed W _ t rc out err He Hrc).
    split; reflexivity.
Qed.



Lemma protected_set_not_elem (x : string) (b : option (list string)) :
  ~ In x (branch_or_default b) -> x ∉ protected_set {| branch := b |}.
Proof.
  intros H Hx. apply H. unfold protected_set in Hx. simpl in Hx.
  apply elem_of_list_to_set in Hx. apply list_elem_of_In. exact Hx.
Qed.

(** C6: without a [--branch] flag the protected set is master and main;
    with [--branch foo --branch bar] it is foo and bar, and neither
    default is in it. *)
Theorem C6_protected_set :
  Git.argparse [] None = inr {| branch := None |} /\
  protected_set {| branch := None |} = {[ "master"; "main" ]} /\
  Git.argparse ["--branch"; "foo"; "--branch"; "bar"] None =
    inr {| branch := Some ["foo"; "bar"] |} /\
  protected_set {| branch := Some ["foo"; "bar"] |} = {[ "foo"; "bar" ]} /\
  ("master" ∉ protected_set {| branch := Some ["foo"; "bar"] |}) /\
  ("main" ∉ protected_set {| branch := Some ["foo"; "bar"] |}) /\
  forall x l, protected_set {| branch := Some (x :: l) |} = list_to_set (x :: l).
Proof.
  split; [reflexivity |].
  split; [unfold protected_set; simpl; set_solver |].
  split; [reflexivity |].
  split; [unfold protected_set; simpl; set_solver |].
  split; [apply protected_set_not_elem; intros [H | [H | []]]; discriminate H |].
  split; [apply protected_set_not_elem; intros [H | [H | []]]; discriminate H |].
  reflexivity.
Qed.

(** C7, amended: for a reference [refs/heads/<name>], also when the
    name has slashes in it, splitting on the slash and joining what
    follows the first two chunks gives the name back. [is_on_branch]
    strips the white space around the reference first, so it returns
    [True] exactly when the name without its trailing white space is in
    the protected set: exactly when the name itself is, for a name that
    does not end in white space. *)
Theorem C7_branch_name_recovered (W : Runtime) (protected : gset string)
    (name err : string) (t : Trace) :
  os_exec W (symbolic_ref_process W) = Exited 0 ("refs/heads/" ++ name ++ NL) err ->
  PyStr.split "/" ("refs/heads/" ++ name) = "refs" :: "heads" :: PyStr.split "/" name /\
  PyStr.join "/" (PyStr.slice_from 2 (PyStr.split "/" ("refs/heads/" ++ name))) = name /\
  (is_on_branch W protected t).1 = inr (bool_decide (PyStr.rstrip name ∈ protected)) /\
  ((is_on_branch W protected t).1 = inr true <-> PyStr.rstrip name ∈ protected) /\
  (PyStr.rstrip name = name ->
   ((is_on_branch W protected t).1 = inr true <-> name ∈ protected)).
Proof.
  intros He.
  assert (Hs : PyStr.split "/" ("refs/heads/" ++ name) =
               "refs" :: "heads" :: PyStr.split "/" name).
  { change ("refs/heads/" ++ name) with ("refs" ++ String "/" ("heads" ++ String "/" name)).
    rewrite split_first by reflexivity. rewrite split_first by reflexivity. reflexivity. }
  assert (Hb : (is_on_branch W protected t).1 =
               inr (bool_decide (PyStr.rstrip name ∈ protected))).
  { rewrite is_on_branch_run. cbv zeta. rewrite He.
    change (0 =? 0)%Z with true. cbv iota.
    rewrite branch_name_of_heads. reflexivity. }
  assert (Hiff : (is_on_branch W protected t).1 = inr true <->
                 PyStr.rstrip name ∈ protected).
  { rewrite Hb. split.
    - intros H. injection H as H. apply bool_decide_eq_true in H. exact H.
    - intros H. rewrite bool_decide_eq_true_2 by exact H. reflexivity. }
  split; [exact Hs |]. split.
  - rewrite Hs. unfold PyStr.slice_from. simpl drop. apply join_split.
  - split; [exact Hb |]. split; [exact Hiff |].
    intros Hn. rewrite Hn in Hiff. exact Hiff.
Qed.

End Contract.

(** * The marker rule and the diff step in a repository *)

Section MarkerRule.

Import Ere Hook Git.

Lemma no_added_marker_sound (diff : string) :
  Samples.no_added_marker diff = true ->
  forall l, In l (lines diff) -> added_line l = true -> ~ contains_marker l.
Proof.
  unfold Samples.no_added_marker. rewrite forallb_forall.
  intros H l Hl Ha Hm. specialize (H l Hl).
  apply has_marker_spec in Hm. rewrite Ha, Hm in H. discriminate.
Qed.

(** C1, where the script departs from it: on the protected branch main,
    a staged change whose added lines are free of the marker, and whose
    context line [total = a + b  # fixme: overflow] has a [+] before the
    marker, is blocked with exit code 1. *)
Theorem C1_context_line_blocks :
  let h := on_branch_with "main" Samples.diff_context in
  (is_on_branch (runtime h) (protected_set {| branch := None |}) start).1 = inr true /\
  (forall l, In l (lines (staged_diff h)) -> added_line l = true -> ~ contains_marker l) /\
  selected (staged_diff h) = [" total = a + b  # fixme: overflow"] /\
  (main (runtime h) None start).1 = inr 1%Z.
Proof.
  cbv zeta. split; [vm_compute; reflexivity |].
  split; [apply no_added_marker_sound; vm_compute; reflexivity |].
  split; vm_compute; reflexivity.
Qed.

(** C2, where the script departs from it: on the protected branch main,
    a staged change in which the marker is on a removed line only,
    [-y = a + b  # FIXME], is blocked with exit code 1, and the removed
    line is what the script prints. *)
Theorem C2_removed_line_blocks :
  let h := on_branch_with "main" Samples.diff_removed in
  (forall l, In l (lines (staged_diff h)) -> contains_marker l ->
             PyStr.startswith_char "-" l = true) /\
  (forall l, In l (lines (staged_diff h)) -> added_line l = true -> ~ contains_marker l) /\
  selected (staged_diff h) = ["-y = a + b  # FIXME"] /\
  (main (runtime h) None start).1 = inr 1%Z.
Proof.
  cbv zeta. split.
  - intros l Hl Hm. apply has_marker_spec in Hm.
    assert (H : forallb (fun l => negb (has_marker l) || PyStr.startswith_char "-" l)
                        (lines (staged_diff (on_branch_with "main" Samples.diff_removed)))
                = true) by (vm_compute; reflexivity).
    rewrite forallb_forall in H. specialize (H l Hl). rewrite Hm in H. exact H.
  - split; [apply no_added_marker_sound; vm_compute; reflexivity |].
    split; vm_compute; reflexivity.
Qed.


(** C7 as stated fails: for the reference of the branch [main] followed
    by a no-break space, [is_on_branch] answers [False] when that exact
    name is the protected set, and [True] when the protected set is
    [main], which is another name. *)
Lemma C7_blank_suffix_name_missed :
  let name := "main" ++ Samples.NBSP in
  let h := on_branch_with name Samples.diff_added in
  os_exec (runtime h) (symbolic_ref_process (runtime h))
    = Exited 0 ("refs/heads/" ++ name ++ NL) "" /\
  (name ∈ ({[ name ]} : gset string)) /\
  (is_on_branch (runtime h) {[ name ]} start).1 = inr false /\
  (name ∉ ({[ "main" ]} : gset string)) /\
  (is_on_branch (runtime h) {[ "main" ]} start).1 = inr true.
Proof.
  cbv zeta. split; [reflexivity |].
  split; [apply elem_of_singleton; reflexivity |].
  split; [vm_compute; reflexivity |].
  split; [| vm_compute; reflexivity].
  intros H. apply elem_of_singleton in H. discriminate H.
Qed.



End MarkerRule.

(** * The scenarios of the contract *)

Section Scenarios.

Import Hook Git.

(** Branch main, an added line with the marker: exit 1, the line is printed. *)
Example scenario_A :
  main (runtime (on_branch_with "main" Samples.diff_added)) None start =
  (inr 1%Z,
   report "+    // FixMe: handle edge case"
     (logged (diff_grep_process (runtime (on_branch_with "main" Samples.diff_added)))
        (logged (symbolic_ref_process (runtime (on_branch_with "main" Samples.diff_added)))
           start))).
Proof. vm_compute. reflexivity. Qed.

(** Branch feature/x, the same change: exit 0, no output. *)
Example scenario_B :
  (main (runtime (on_branch_with "feature/x" Samples.diff_added)) None start).1 = inr 0%Z /\
  printed (main (runtime (on_branch_with "feature/x" Samples.diff_added)) None start).2 = "".
Proof. split; vm_compute; reflexivity. Qed.

(** Branch main, a removed line with the marker and no [+] before it: exit 0. *)
Example scenario_C :
  (main (runtime (on_branch_with "main" Samples.diff_removed_plain)) None start).1 = inr 0%Z.
Proof. vm_compute. reflexivity. Qed.

(** Branch master, no marker anywhere: exit 0, no output. *)
Example scenario_D :
  (main (runtime (on_branch_with "master" Samples.diff_clean)) None start).1 = inr 0%Z /\
  printed (main (runtime (on_branch_with "master" Samples.diff_clean)) None start).2 = "".
Proof. split; vm_compute; reflexivity. Qed.

(** Detached HEAD: exit 0, and the diff step is not started. *)
Example scenario_E :
  main (runtime Samples.detached) None start =
  (inr 0%Z, logged (symbolic_ref_process (runtime Samples.detached)) start).
Proof. vm_compute. reflexivity. Qed.

(** With [--branch foo --branch bar], the branch main is not protected
    and the branch bar is. *)
Example scenario_flags :
  (main (runtime (on_branch_with "main" Samples.diff_added))
     (Some ["--branch"; "foo"; "--branch"; "bar"]) start).1 = inr 0%Z /\
  (main (runtime (on_branch_with "bar" Samples.diff_added))
     (Some ["--branch"; "foo"; "--branch"; "bar"]) start).1 = inr 1%Z.
Proof. split; vm_compute; reflexivity. Qed.

End Scenarios.

(** * The theorems at sample runs *)

Section Witnesses.

Import Ere Hook Git.


(** C9 at an override of [PATH] alone, in an environment that has [HOME]. *)
Lemma C9_extra_env_replaces_witness :
  let W := runtime Samples.feature_host in
  Samples.path_env <> ∅ /\
  updated_env W (Some Samples.path_env) = Some (Samples.path_env ∪ os_environ W) /\
  exists p,
    spawned (run_cmd W (CmdStr symbolic_ref_cmd) None (Some Samples.path_env)
               true true None start).2 = (spawned start ++ [p])%list /\
    p_cmd p = CmdStr symbolic_ref_cmd /\ p_environ p = Samples.path_env /\
    forall k v, os_environ W !! k = Some v -> Samples.path_env !! k = None ->
                p_environ p !! k = None /\
                (Samples.path_env ∪ os_environ W) !! k = Some v.
Proof.
  cbv zeta.
  assert (H : Samples.path_env <> ∅) by (vm_compute; discriminate).
  split; [exact H |].
  apply (C9_extra_env_replaces (runtime Samples.feature_host) (CmdStr symbolic_ref_cmd)
           None Samples.path_env true true None start H).
Defined.

(** C5 at a detached HEAD. *)
Lemma C5_lookup_failure_allows_witness :
  let W := runtime Samples.detached in
  os_exec W (symbolic_ref_process W)
    = Exited 128 "" "fatal: ref HEAD is not a symbolic ref" /\
  128%Z <> 0%Z /\
  (is_on_branch W {[ "master"; "main" ]} start).1 = inr false /\
  forall argv args,
    parse_args W (argv_or_sys W argv) = inr args ->
    (main W argv start).1 = inr 0%Z /\ exit_status (main W argv start).1 = 0%Z.
Proof.
  cbv zeta.
  assert (H : 128%Z <> 0%Z) by lia.
  split; [reflexivity |]. split; [exact H |].
  apply (C5_lookup_failure_allows (runtime Samples.detached) {[ "master"; "main" ]} start
           128 "" "fatal: ref HEAD is not a symbolic ref"); [reflexivity | exact H].
Defined.


(** C7 (amended) at the branch release/2024-01. *)
Lemma C7_branch_name_recovered_witness :
  let W := runtime (on_branch_with "release/2024-01" Samples.diff_added) in
  os_exec W (symbolic_ref_process W)
    = Exited 0 ("refs/heads/" ++ "release/2024-01" ++ NL) "" /\
  PyStr.split "/" ("refs/heads/" ++ "release/2024-01")
    = "refs" :: "heads" :: PyStr.split "/" "release/2024-01" /\
  PyStr.join "/" (PyStr.slice_from 2 (PyStr.split "/" ("refs/heads/" ++ "release/2024-01")))
    = "release/2024-01" /\
  (is_on_branch W {[ "release/2024-01" ]} start).1 = inr true.
Proof.
  cbv zeta.
  split; [reflexivity |].
  destruct (C7_branch_name_recovered
              (runtime (on_branch_with "release/2024-01" Samples.diff_added))
              {[ "release/2024-01" ]} "release/2024-01" "" start eq_refl)
    as (Hs & Hj & _ & _ & Hiff).
  split; [exact Hs |]. split; [exact Hj |].
  apply (Hiff eq_refl). apply elem_of_singleton. reflexivity.
Defined.


End Witnesses.

(** * Further properties of the script *)

Section MoreStrFacts.

Lemma rstrip_by_blank (sp : ascii -> bool) (s : string) :
  PyStr.is_empty (PyStr.rstrip_by sp s) = forallb sp (list_ascii_of_string s).
Proof.
  induction s as [| c s IH]; simpl; [reflexivity |].
  rewrite <- IH.
  destruct (PyStr.is_empty (PyStr.rstrip_by sp s)); simpl;
    [destruct (sp c); reflexivity | rewrite andb_false_r; reflexivity].
Qed.

Lemma rstrip_blank (s : string) : PyStr.is_empty (PyStr.rstrip s) = Hook.blank s.
Proof. apply rstrip_by_blank. Qed.

Lemma rstrip_app_blank (s ws : string) :
  Hook.blank ws = true -> PyStr.rstrip (s ++ ws) = PyStr.rstrip s.
Proof.
  intros H. rewrite rstrip_app, rstrip_blank, H. reflexivity.
Qed.

Lemma lstrip_app_blank (ws s : string) :
  Hook.blank ws = true -> PyStr.lstrip (ws ++ s) = PyStr.lstrip s.
Proof.
  unfold Hook.blank. induction ws as [| c ws IH]; simpl; [reflexivity |].
  intros H. apply andb_prop in H as [Hc Hws]. rewrite Hc. auto.
Qed.

Lemma strip_around (ws1 s ws2 : string) :
  Hook.blank ws1 = true -> Hook.blank ws2 = true ->
  PyStr.strip (ws1 ++ s ++ ws2) = PyStr.strip s.
Proof.
  intros H1 H2. unfold PyStr.strip.
  rewrite <- app_assoc, rstrip_app_blank by exact H2.
  rewrite rstrip_app. destruct (PyStr.is_empty (PyStr.rstrip s)) eqn:E.
  - apply is_empty_true in E. rewrite E.
    assert (E1 : PyStr.rstrip ws1 = "").
    { apply is_empty_true. rewrite rstrip_blank. exact H1. }
    rewrite E1. reflexivity.
  - apply lstrip_app_blank. exact H1.
Qed.

Lemma strip_trailing (s ws : string) :
  Hook.blank ws = true -> PyStr.strip (s ++ ws) = PyStr.strip s.
Proof. intros H. apply (strip_around "" s ws); [reflexivity | exact H]. Qed.

Lemma strip_rstrip (s : string) : PyStr.strip (PyStr.rstrip s) = PyStr.strip s.
Proof. unfold PyStr.strip. rewrite rstrip_idem. reflexivity. Qed.

End MoreStrFacts.

Section RunCmdProperties.

Import Hook.

Context (W : Runtime).

(** X1: [run_cmd] returns a value only when its child exited with
    status 0, and the value is then the two trimmed outputs, or
    [(None, None)] without capture. A timeout leaves it as
    [TimeoutExpired] for the command, with the timeout that [run]
    reports, and a child that could not be started as [OSError]. The
    [rstrip] never meets an output that is [None]: [run_cmd] never ends
    in [AttributeError], nor in [SystemExit]. *)
Theorem X1_run_cmd_returns_only_on_exit_zero cmd cwd extra_env capture text timeout
    (t : Trace) :
  let p := run_cmd_process W cmd cwd extra_env timeout in
  let r := (run_cmd W cmd cwd extra_env capture text timeout t).1 in
  (forall v, r = inr v ->
     exists out err,
       os_exec W p = Exited 0 out err /\
       v = if capture
           then (Some (output_rstrip text out), Some (output_rstrip text err))
           else (None, None)) /\
  (os_exec W p = TimedOut ->
     r = inl (TimeoutExpired cmd
                (match timeout with
                 | None => None
                 | Some _ => Some (os_timeout_reported W p)
                 end))) /\
  (forall msg, os_exec W p = SpawnFailed msg -> r = inl (OSError msg)) /\
  (forall msg, r <> inl (AttributeError msg)) /\
  (forall code, r <> inl (SystemExit code)).
Proof.
  cbv zeta. rewrite run_cmd_run. cbv zeta.
  destruct (os_exec W (run_cmd_process W cmd cwd extra_env timeout)) as [rc out err | | msg].
  - destruct (Z.eqb_spec rc 0) as [-> | Hrc]; simpl.
    + split; [| repeat split; discriminate].
      intros v H. injection H as <-. eauto.
    + repeat split; discriminate.
  - simpl. repeat split; discriminate.
  - simpl. split; [discriminate |]. split; [discriminate |].
    split; [congruence |]. split; discriminate.
Qed.

(** X2: whatever becomes of the child, [run_cmd] starts exactly one
    process and prints nothing. The process runs through the shell
    exactly when the command is a [str]; a [Path] working directory is
    made absolute and a [str] one is passed as it is. *)
Theorem X2_run_cmd_starts_one_child cmd cwd extra_env capture text timeout (t : Trace) :
  exists p,
    spawned (run_cmd W cmd cwd extra_env capture text timeout t).2 = (spawned t ++ [p])%list /\
    printed (run_cmd W cmd cwd extra_env capture text timeout t).2 = printed t /\
    p_cmd p = cmd /\ p_shell p = is_str cmd /\ p_timeout p = timeout /\
    (forall q, cwd = Some (CwdPath q) -> p_cwd p = Some (path_absolute W q)) /\
    (forall d, cwd = Some (CwdStr d) -> p_cwd p = Some d) /\
    (cwd = None -> p_cwd p = None).
Proof.
  exists (run_cmd_process W cmd cwd extra_env timeout).
  rewrite run_cmd_spawned. repeat split.
  - intros q ->. reflexivity.
  - intros d ->. reflexivity.
  - intros ->. reflexivity.
Qed.


Lemma branch_name_of_strip (out : string) :
  branch_name_of out =
  PyStr.join "/" (PyStr.slice_from 2 (PyStr.split "/" (PyStr.strip out))).
Proof. unfold branch_name_of. rewrite strip_rstrip. reflexivity. Qed.

Lemma is_on_branch_exited (protected : gset string) (t : Trace) (out err : string) :
  os_exec W (symbolic_ref_process W) = Exited 0 out err ->
  (is_on_branch W protected t).1 = inr (bool_decide (branch_name_of out ∈ protected)).
Proof.
  intros He. rewrite is_on_branch_run. cbv zeta. rewrite He. reflexivity.
Qed.

(** X4: the first two chunks of the reference are dropped without
    being looked at: for a reference [a/b/name], whatever [a] and [b] are,
    [is_on_branch] compares [name] with the protected set. A HEAD at
    [refs/remotes/origin/main] counts as the branch [origin/main]. *)
Theorem X4_leading_chunks_not_checked (protected : gset string)
    (a b name err : string) (t : Trace) :
  PyStr.split "/" a = [a] -> PyStr.split "/" b = [b] ->
  PyStr.strip (a ++ "/" ++ b ++ "/" ++ name) = a ++ "/" ++ b ++ "/" ++ name ->
  os_exec W (symbolic_ref_process W) = Exited 0 ((a ++ "/" ++ b ++ "/" ++ name) ++ NL) err ->
  (is_on_branch W protected t).1 = inr (bool_decide (name ∈ protected)).
Proof.
  intros Ha Hb Hs He. rewrite (is_on_branch_exited protected t _ err He).
  rewrite branch_name_of_strip.
  rewrite strip_trailing by reflexivity. rewrite Hs.
  change (a ++ "/" ++ b ++ "/" ++ name) with (a ++ String "/" (b ++ String "/" name)).
  rewrite split_first by exact Ha. rewrite split_first by exact Hb.
  assert (E : PyStr.join "/" (PyStr.slice_from 2 (a :: b :: PyStr.split "/" name)) = name)
    by apply join_split.
  rewrite E. reflexivity.
Qed.

(** X5: a reference with fewer than two slashes has no third chunk;
    the branch name is then the empty string, so [is_on_branch] returns
    [True] only when the empty string is protected, and [False] under
    the default protected set. *)
Theorem X5_short_reference (protected : gset string) (out err : string) (t : Trace) :
  os_exec W (symbolic_ref_process W) = Exited 0 out err ->
  length (PyStr.split "/" (PyStr.strip out)) <= 2 ->
  (is_on_branch W protected t).1 = inr (bool_decide ("" ∈ protected)) /\
  (is_on_branch W (protected_set {| branch := None |}) t).1 = inr false.
Proof.
  intros He Hl.
  assert (Hn : branch_name_of out = "").
  { rewrite branch_name_of_strip. unfold PyStr.slice_from.
    rewrite drop_ge by exact Hl. reflexivity. }
  rewrite !(is_on_branch_exited _ t out err He), Hn. split; [reflexivity |].
  apply f_equal. apply bool_decide_eq_false_2. apply protected_set_not_elem.
  intros [H | [H | []]]; discriminate H.
Qed.

End RunCmdProperties.

Section HookProperties.

Import Hook.

(** X6: white space before and after the reference that
    [git symbolic-ref HEAD] prints does not change the answer of
    [is_on_branch]. *)
Theorem X6_reference_blanks_ignored (W W' : Runtime) (protected : gset string)
    (ws1 s ws2 err err' : string) (t : Trace) :
  blank ws1 = true -> blank ws2 = true ->
  os_exec W (symbolic_ref_process W) = Exited 0 s err ->
  os_exec W' (symbolic_ref_process W') = Exited 0 (ws1 ++ s ++ ws2) err' ->
  (is_on_branch W' protected t).1 = (is_on_branch W protected t).1.
Proof.
  intros H1 H2 He He'.
  rewrite (is_on_branch_exited W protected t s err He).
  rewrite (is_on_branch_exited W' protected t _ err' He').
  rewrite !branch_name_of_strip, strip_around by assumption. reflexivity.
Qed.

(** X7: when the diff command line ends with status 0,
    [has_fixme_comments] returns [True] exactly when its output has a
    character that is not white space; it then prints the red notice and
    the output without its trailing white space, and otherwise prints
    nothing. *)
Theorem X7_fixme_iff_output_not_blank (W : Runtime) (t : Trace) (out err : string) :
  os_exec W (diff_grep_process W) = Exited 0 out err ->
  (has_fixme_comments W t).1 = inr (negb (blank out)) /\
  (blank out = true -> (has_fixme_comments W t).2 = logged (diff_grep_process W) t) /\
  (blank out = false ->
   (has_fixme_comments W t).2 = report (PyStr.rstrip out) (logged (diff_grep_process W) t)).
Proof.
  intros He. rewrite has_fixme_comments_run. cbv zeta. rewrite He.
  change (0 =? 0)%Z with true. cbv iota. rewrite rstrip_blank.
  destruct (blank out); simpl; repeat split; congruence.
Qed.

(** [main] in terms of what the two children do. *)
Lemma main_outcomes (W : Runtime) argv args (t : Trace) :
  parse_args W (argv_or_sys W argv) = inr args ->
  let t1 := logged (symbolic_ref_process W) t in
  let t2 := logged (diff_grep_process W) t1 in
  main W argv t =
  match is_on_branch W (protected_set args) t with
  | (inl e, _) => (inl e, t1)
  | (inr false, _) => (inr 0%Z, t1)
  | (inr true, _) =>
      match os_exec W (diff_grep_process W) with
      | Exited rc out err =>
          if (rc =? 0)%Z
          then if blank out then (inr 0%Z, t2)
               else (inr 1%Z, report (PyStr.rstrip out) t2)
          else (inl (CalledProcessError rc (CmdStr diff_grep_cmd) (Some out) (Some err)), t2)
      | TimedOut => (inl (TimeoutExpired (CmdStr diff_grep_cmd) None), t2)
      | SpawnFailed msg => (inl (OSError msg), t2)
      end
  end.
Proof.
  intros Hp. cbv zeta. rewrite main_run, Hp.
  pose proof (Hrun := is_on_branch_run W (protected_set args) t). cbv zeta in Hrun.
  assert (Ht : (is_on_branch W (protected_set args) t).2 = logged (symbolic_ref_process W) t).
  { rewrite Hrun. destruct (os_exec W (symbolic_ref_process W)) as [rc out err | |];
      try reflexivity. destruct (rc =? 0)%Z; reflexivity. }
  clear Hrun.
  destruct (is_on_branch W (protected_set args) t) as [[e | []] t1]; simpl in Ht; subst t1;
    try reflexivity.
  rewrite has_fixme_comments_run. cbv zeta.
  destruct (os_exec W (diff_grep_process W)) as [rc out err | | msg]; try reflexivity.
  destruct (rc =? 0)%Z; [| reflexivity].
  rewrite rstrip_blank. destruct (blank out); reflexivity.
Qed.

(** X8: when [main] returns, it returns 0 or 1. It returns 1 only
    after both children were started, the branch lookup first, and the
    diff step gave output that is not blank, which it printed under the
    notice; when it returns 0 it has printed nothing. *)
Theorem X8_main_exit_codes (W : Runtime) argv (t : Trace) (n : Z) :
  (main W argv t).1 = inr n ->
  (n = 0%Z \/ n = 1%Z) /\
  (n = 1%Z ->
   spawned (main W argv t).2
     = (spawned t ++ [symbolic_ref_process W; diff_grep_process W])%list /\
   exists out err,
     os_exec W (diff_grep_process W) = Exited 0 out err /\ blank out = false /\
     printed (main W argv t).2 = printed (report (PyStr.rstrip out) t)) /\
  (n = 0%Z -> printed (main W argv t).2 = printed t).
Proof.
  destruct (parse_args W (argv_or_sys W argv)) as [e | args] eqn:Hp.
  { rewrite main_run, Hp. discriminate. }
  rewrite (main_outcomes W argv args t Hp). cbv zeta.
  destruct (is_on_branch W (protected_set args) t) as [[e | []] t1]; simpl.
  - discriminate.
  - destruct (os_exec W (diff_grep_process W)) as [rc out err | | msg]; try discriminate.
    destruct (Z.eqb_spec rc 0) as [-> | Hrc]; [| discriminate].
    destruct (blank out) eqn:Hb; simpl; intros H; injection H as <-.
    + split; [auto |]. split; [discriminate | reflexivity].
    + split; [auto |]. split; [| discriminate].
      intros _. split; [rewrite <- List.app_assoc; reflexivity | eauto].
  - intros H. injection H as <-. split; [auto |]. split; [discriminate | reflexivity].
Qed.

(** X9: [main] starts at most two processes, the branch lookup and
    then the diff step, in this order. An argument error ends it before
    any process is started; the diff step is started exactly when
    [is_on_branch] returned [True]. *)
Theorem X9_main_spawn_order (W : Runtime) argv (t : Trace) :
  (forall e, parse_args W (argv_or_sys W argv) = inl e -> main W argv t = (inl e, t)) /\
  (forall args, parse_args W (argv_or_sys W argv) = inr args ->
     (is_on_branch W (protected_set args) t).1 = inr true ->
     spawned (main W argv t).2
       = (spawned t ++ [symbolic_ref_process W; diff_grep_process W])%list) /\
  (forall args, parse_args W (argv_or_sys W argv) = inr args ->
     (is_on_branch W (protected_set args) t).1 <> inr true ->
     (main W argv t).2 = logged (symbolic_ref_process W) t).
Proof.
  split; [| split].
  - intros e Hp. rewrite main_run, Hp. reflexivity.
  - intros args Hp Hb. rewrite (main_outcomes W argv args t Hp). cbv zeta.
    destruct (is_on_branch W (protected_set args) t) as [[e | []] t1]; simpl in Hb;
      try discriminate.
    destruct (os_exec W (diff_grep_process W)) as [rc out err | | msg];
      [destruct (rc =? 0)%Z; [destruct (blank out) |] | |];
      simpl; rewrite <- List.app_assoc; reflexivity.
  - intros args Hp Hb. rewrite (main_outcomes W argv args t Hp). cbv zeta.
    destruct (is_on_branch W (protected_set args) t) as [[e | []] t1]; simpl in Hb;
      [reflexivity | contradiction | reflexivity].
Qed.

(** X12: with at least one [--branch] flag the protected set holds
    exactly the names given, so the order of the flags and their
    repetition make no difference; without a flag it holds master and
    main and nothing else. *)
Theorem X12_protected_set_membership (x : string) (l l' : list string) :
  (l <> [] -> (x ∈ protected_set {| branch := Some l |} <-> In x l)) /\
  (x ∈ protected_set {| branch := None |} <-> x = "master" \/ x = "main") /\
  (l <> [] -> l' <> [] -> (forall y, In y l <-> In y l') ->
   protected_set {| branch := Some l |} = protected_set {| branch := Some l' |}).
Proof.
  assert (Hm : forall (y : string) (k : list string), k <> [] ->
                 (y ∈ protected_set {| branch := Some k |} <-> In y k)).
  { intros y k Hk. destruct k as [| z k]; [contradiction |].
    change (protected_set {| branch := Some (z :: k) |})
      with (list_to_set (z :: k) : gset string).
    rewrite elem_of_list_to_set, list_elem_of_In. reflexivity. }
  split; [apply Hm |]. split.
  - change (protected_set {| branch := None |})
      with (list_to_set ["master"; "main"] : gset string).
    rewrite elem_of_list_to_set, list_elem_of_In.
    simpl. intuition.
  - intros Hl Hl' H. apply set_eq. intros y. rewrite !Hm by assumption. apply H.
Qed.

End HookProperties.

Section RepositoryProperties.

Import Ere Hook Git.












End RepositoryProperties.

(** * The further properties at sample runs *)

Section MoreWitnesses.

Import Ere Hook Git.

(** X4 at a HEAD that points to a remote-tracking reference. *)
Lemma X4_leading_chunks_not_checked_witness :
  let W := runtime (Samples.head_at "refs/remotes/origin/main" Samples.diff_added) in
  PyStr.split "/" "refs" = ["refs"] /\
  PyStr.split "/" "remotes" = ["remotes"] /\
  PyStr.strip ("refs" ++ "/" ++ "remotes" ++ "/" ++ "origin/main")
    = "refs" ++ "/" ++ "remotes" ++ "/" ++ "origin/main" /\
  os_exec W (symbolic_ref_process W)
    = Exited 0 (("refs" ++ "/" ++ "remotes" ++ "/" ++ "origin/main") ++ NL) "" /\
  (is_on_branch W {[ "origin/main" ]} start).1 = inr true.
Proof.
  cbv zeta.
  split; [reflexivity |]. split; [reflexivity |]. split; [reflexivity |].
  split; [reflexivity |].
  exact (X4_leading_chunks_not_checked
           (runtime (Samples.head_at "refs/remotes/origin/main" Samples.diff_added))
           {[ "origin/main" ]} "refs" "remotes" "origin/main" "" start
           eq_refl eq_refl eq_refl eq_refl).
Defined.

(** X5 at a reference without a slash. *)
Lemma X5_short_reference_witness :
  let W := runtime (Samples.head_at "HEAD" Samples.diff_added) in
  os_exec W (symbolic_ref_process W) = Exited 0 ("HEAD" ++ NL) "" /\
  length (PyStr.split "/" (PyStr.strip ("HEAD" ++ NL))) <= 2 /\
  (is_on_branch W {[ "main" ]} start).1 = inr false /\
  (is_on_branch W (protected_set {| branch := None |}) start).1 = inr false.
Proof.
  cbv zeta.
  assert (Hl : length (PyStr.split "/" (PyStr.strip ("HEAD" ++ NL))) <= 2)
    by (vm_compute; lia).
  split; [reflexivity |]. split; [exact Hl |].
  exact (X5_short_reference (runtime (Samples.head_at "HEAD" Samples.diff_added))
           {[ "main" ]} ("HEAD" ++ NL) "" start eq_refl Hl).
Defined.

(** X6 at a reference printed between blanks. *)
Lemma X6_reference_blanks_ignored_witness :
  let W := runtime (Samples.head_at "refs/heads/main" Samples.diff_added) in
  let W' := runtime (Samples.head_at (" " ++ "refs/heads/main" ++ NL ++ " ")
                       Samples.diff_added) in
  blank " " = true /\ blank (" " ++ NL) = true /\
  os_exec W (symbolic_ref_process W) = Exited 0 ("refs/heads/main" ++ NL) "" /\
  os_exec W' (symbolic_ref_process W')
    = Exited 0 (" " ++ ("refs/heads/main" ++ NL) ++ (" " ++ NL)) "" /\
  (is_on_branch W' {[ "master"; "main" ]} start).1
    = (is_on_branch W {[ "master"; "main" ]} start).1.
Proof.
  cbv zeta.
  split; [reflexivity |]. split; [reflexivity |]. split; [reflexivity |].
  split; [reflexivity |].
  apply (X6_reference_blanks_ignored
           (runtime (Samples.head_at "refs/heads/main" Samples.diff_added))
           (runtime (Samples.head_at (" " ++ "refs/heads/main" ++ NL ++ " ")
                       Samples.diff_added))
           {[ "master"; "main" ]} " " ("refs/heads/main" ++ NL) (" " ++ NL) "" "" start);
    reflexivity.
Defined.

(** X7 at a staged change that adds a line with the marker. *)
Lemma X7_fixme_iff_output_not_blank_witness :
  let W := runtime (on_branch_with "main" Samples.diff_added) in
  let out := "+    // FixMe: handle edge case" ++ NL in
  os_exec W (diff_grep_process W) = Exited 0 out "" /\
  (has_fixme_comments W start).1 = inr (negb (blank out)) /\
  (blank out = true ->
   (has_fixme_comments W start).2 = logged (diff_grep_process W) start) /\
  (blank out = false ->
   (has_fixme_comments W start).2
     = report (PyStr.rstrip out) (logged (diff_grep_process W) start)).
Proof.
  cbv zeta.
  split; [vm_compute; reflexivity |].
  apply (X7_fixme_iff_output_not_blank (runtime (on_branch_with "main" Samples.diff_added))
           start ("+    // FixMe: handle edge case" ++ NL) "").
  vm_compute. reflexivity.
Defined.

(** X8 at a blocked commit. *)
Lemma X8_main_exit_codes_witness :
  let W := runtime (on_branch_with "main" Samples.diff_added) in
  (main W None start).1 = inr 1%Z /\
  (1%Z = 0%Z \/ 1%Z = 1%Z) /\
  (1%Z = 1%Z ->
   spawned (main W None start).2
     = (spawned start ++ [symbolic_ref_process W; diff_grep_process W])%list /\
   exists out err,
     os_exec W (diff_grep_process W) = Exited 0 out err /\ blank out = false /\
     printed (main W None start).2 = printed (report (PyStr.rstrip out) start)) /\
  (1%Z = 0%Z -> printed (main W None start).2 = printed start).
Proof.
  cbv zeta.
  assert (H : (main (runtime (on_branch_with "main" Samples.diff_added)) None start).1
              = inr 1%Z) by (vm_compute; reflexivity).
  split; [exact H |].
  apply (X8_main_exit_codes (runtime (on_branch_with "main" Samples.diff_added))
           None start 1 H).
Defined.



End MoreWitnesses.
